(** * haystack: evaluation metrics and the docx converter

    A shallow embedding of [haystack/evaluation/eval.py] and
    [haystack/components/converters/docx.py].

    Modelling conventions.
    - Python [str] is [string]; a character is a code point below 256.
    - Python [float] (and the [numpy] floats of the scores) is the exact
      rational [Q]: IEEE rounding is not modelled, [np.mean] of an empty
      array is the separate value [MNaN].
    - A [dict] is a [gmap]; [collections.Counter] is a [gmap string nat].
    - A [numpy] array of strings has fixed-width elements padded with NUL:
      its elements compare equal when they agree up to trailing NULs.
    - Raising is the [Err] case of [Result]; code that calls helpers of
      other modules, external models, the logger or the runnable runs in
      the state-and-error monad [M], whose state records these calls. *)

From Stdlib Require Import Ascii QArith Qabs Lqa.
From stdpp Require Import base tactics option list strings gmap gmultiset pretty.

Local Open Scope Z_scope.
Local Open Scope nat_scope.

(** ** Python values, exceptions *)

Inductive PyVal : Type :=
  | VNone
  | VBool (b : bool)
  | VInt (z : Z)
  | VStr (s : string)
  | VStrList (l : list string)
  | VDatetime (stamp : Z).

Inductive Exn : Type :=
  | ValueError (msg : string)
  | TypeError (msg : string)
  | Raised (name msg : string).

Inductive Result (A : Type) : Type :=
  | Ok (a : A)
  | Err (e : Exn).
Arguments Ok {A} a.
Arguments Err {A} e.

(** ** The state-and-error monad *)

Definition M (W A : Type) : Type := W → W * Result A.

Definition ret {W A} (a : A) : M W A := λ w, (w, Ok a).

Definition raise {W A} (e : Exn) : M W A := λ w, (w, Err e).

Definition bind {W A B} (m : M W A) (k : A → M W B) : M W B :=
  λ w, match m w with
       | (w', Ok a) => k a w'
       | (w', Err e) => (w', Err e)
       end.

Notation "'let*' x ':=' m 'in' k" := (bind m (λ x, k))
  (at level 10, x pattern, m at level 100, k at level 200).

(** [for x in xs: acc = body(acc, x)], leaving the loop when [body] raises. *)
Fixpoint for_each {W A B} (xs : list A) (body : B → A → M W B) (acc : B) : M W B :=
  match xs with
  | [] => ret acc
  | x :: xs' => let* acc' := body acc x in for_each xs' body acc'
  end.

(** A call of a helper, an external library or a model: the callee's name is
    appended to the call log, its result or exception is passed on. *)
Definition call {A} (callee : string) (r : Result A) : M (list string) A :=
  λ log, (log ++ [callee], r).

(** ** Strings *)

Module PyStr.

(** [str.isspace] on the code points below 256. *)
Definition is_space (c : ascii) : bool :=
  let n := nat_of_ascii c in
  ((9 <=? n) && (n <=? 13)) || ((28 <=? n) && (n <=? 32))
  || (n =? 133) || (n =? 160).

Fixpoint split_go (tok : string) (s : string) : list string :=
  match s with
  | EmptyString =>
      match tok with EmptyString => [] | _ => [String.rev tok] end
  | String c s' =>
      if is_space c then
        match tok with
        | EmptyString => split_go EmptyString s'
        | _ => String.rev tok :: split_go EmptyString s'
        end
      else split_go (String c tok) s'
  end.

(** [s.split()]: the tokens between runs of whitespace, none of them empty. *)
Definition split (s : string) : list string := split_go EmptyString s.

Fixpoint is_prefix (p s : string) : bool :=
  match p, s with
  | EmptyString, _ => true
  | String a p', String b s' => bool_decide (a = b) && is_prefix p' s'
  | String _ _, EmptyString => false
  end.

(** [s.endswith(suffix)] *)
Definition endswith (s suffix : string) : bool :=
  is_prefix (String.rev suffix) (String.rev s).

(** [sep.join(parts)] *)
Fixpoint join (sep : string) (parts : list string) : string :=
  match parts with
  | [] => ""
  | [p] => p
  | p :: ps => p +:+ sep +:+ join sep ps
  end.

Definition newline : string := String (ascii_of_nat 10) "".

(** The string without its trailing NUL characters: what an element of a
    fixed-width [numpy] string array holds of the string stored in it, NUL
    being the padding of such arrays. *)
Fixpoint rstrip_nul (s : string) : string :=
  match s with
  | EmptyString => EmptyString
  | String c s' =>
      match rstrip_nul s' with
      | EmptyString =>
          if bool_decide (c = Ascii.zero) then EmptyString else String c EmptyString
      | t => String c t
      end
  end.

End PyStr.

(** ** [collections.Counter] *)

Module Counter.

(** [Counter(iterable)]: one increment per element, in order. *)
Definition update (c : gmap string nat) (elem : string) : gmap string nat :=
  <[elem := default 0 (c !! elem) + 1]> c.

Definition of_list (toks : list string) : gmap string nat :=
  foldl update ∅ toks.

(** [other[elem]]: a missing key counts 0. *)
Definition get (c : gmap string nat) (elem : string) : nat :=
  default 0 (c !! elem).

(** [self & other]: runs over the items of [self] and keeps the smaller
    of the two counts where it is positive. *)
Definition __and__ (self other : gmap string nat) : gmap string nat :=
  map_imap (λ elem count,
    let other_count := get other elem in
    let newcount := if count <? other_count then count else other_count in
    if 0 <? newcount then Some newcount else None) self.

(** [sum(c.values())] *)
Definition sum_values (c : gmap string nat) : nat :=
  sum_list (snd <$> map_to_list c).

End Counter.

(** ** Scores *)

Definition QofNat (n : nat) : Q := inject_Z (Z.of_nat n).

Definition Qsum (xs : list Q) : Q := foldr Qplus 0%Q xs.

(** The value stored under a key of a [MetricsResult] (a [dict]). *)
Inductive MetricValue : Type :=
  | MNone
  | MFloat (q : Q)
  | MNaN
  | MFloats (l : list Q).

(** [np.mean]: the sum over the number of elements, [nan] on no element. *)
Definition np_mean (xs : list Q) : MetricValue :=
  match xs with
  | [] => MNaN
  | _ => MFloat (Qsum xs / QofNat (length xs))
  end.

(** [x > 1] *)
Definition Qgt1 (x : Q) : bool := negb (Qle_bool x 1).

(** ** [haystack/evaluation/eval.py] *)

Inductive RunnableType : Type := pipeline | component.

(** The normalization options shared by F1, EM and SAS, as passed. *)
Record TextOptions : Type := {
  regexes_to_ignore : PyVal;
  ignore_case : PyVal;
  ignore_punctuation : PyVal;
  ignore_numbers : PyVal
}.

(** The part of a [transformers] model configuration that is read:
    [config.architectures], a list or [None]. *)
Record Config : Type := { architectures : option (list string) }.

(** What [eval.py] imports: the helpers of [haystack.evaluation.eval_utils]
    and [haystack.utils], the lazy import guard and the model libraries.
    None of them is among the sources; each is a parameter. [normalize] is
    what [preprocess_text] does to one string, [expit] what
    [haystack.utils.expit] does to one score. *)
Class Imports (Output : Type) : Type := {
  get_answers_from_output : list Output → PyVal → RunnableType → Result (list string);
  normalize : TextOptions → string → string;
  metrics_import_check : Result unit;
  AutoConfig_from_pretrained : PyVal → PyVal → Result Config;
  Device : Type;
  resolve_device : PyVal → Result Device;
  to_torch_str : Device → string;
  CrossEncoder : Type;
  CrossEncoder_new : PyVal → string → PyVal → Result CrossEncoder;
  predict : CrossEncoder → list (string * string) → PyVal → Result (list Q);
  SentenceTransformer : Type;
  SentenceTransformer_new : PyVal → string → PyVal → Result SentenceTransformer;
  Embeddings : Type;
  encode : SentenceTransformer → list string → PyVal → Result Embeddings;
  cos_sim : Embeddings → Embeddings → Result (list (list Q));
  expit : Q → Q
}.

(** [haystack.evaluation.metrics.Metric] *)
Inductive Metric : Type := RECALL | MRR | MAP | F1 | EM | SAS.

(** A runnable: the name of its class and its [run] method, which reads
    and updates the runnable's own state and may raise. *)
Record Runnable (S Input Output : Type) : Type := {
  type_name : string;
  run : S → Input → S * Result Output
}.
Arguments type_name {S Input Output} _.
Arguments run {S Input Output} _ _ _.

Record EvaluationResult (S Input Output : Type) : Type := {
  runnable : Runnable S Input Output;
  inputs : list Input;
  outputs : list Output;
  expected_outputs : list Output;
  runnable_type : RunnableType
}.
Arguments runnable {S Input Output} _.
Arguments inputs {S Input Output} _.
Arguments outputs {S Input Output} _.
Arguments expected_outputs {S Input Output} _.
Arguments runnable_type {S Input Output} _.

(** What a run of [eval] acts on: the state of the runnable, and the inputs
    it has been invoked with so far. *)
Record EvalWorld (S Input : Type) : Type := {
  rstate : S;
  invoked : list Input
}.
Arguments rstate {S Input} _.
Arguments invoked {S Input} _.

Definition mismatch_msg : string :=
  "The number of predictions and labels must be the same.".

(** Keyword arguments against a signature: a name that is no parameter, or
    a required parameter without a value, is a [TypeError] (the message is
    shortened: it names neither the method nor the argument). *)
Definition bind_kwargs (params required : list string) (kwargs : gmap string PyVal)
    : Result unit :=
  if bool_decide (Forall (λ k, k ∈ params) (map_to_list kwargs).*1) then
    if bool_decide (Forall (λ p, is_Some (kwargs !! p)) required) then Ok tt
    else Err (TypeError "missing required argument")
  else Err (TypeError "got an unexpected keyword argument").

(** The value of a parameter: the keyword argument, else the default. *)
Definition arg (kwargs : gmap string PyVal) (name : string) (dflt : PyVal) : PyVal :=
  default dflt (kwargs !! name).

Section Evaluation.
Context {S Input Output : Type} {env : Imports Output}.

Abbreviation MetricsResult := (gmap string MetricValue).
Abbreviation EvalResult := (EvaluationResult S Input Output).

(** [EvaluationResult.__init__] *)
Definition __init__ (runnable : Runnable S Input Output) (inputs : list Input)
    (outputs expected_outputs : list Output) : EvalResult :=
  {| runnable := runnable;
     inputs := inputs;
     outputs := outputs;
     expected_outputs := expected_outputs;
     runnable_type :=
       if bool_decide (type_name runnable = "Pipeline") then pipeline else component |}.

Definition _calculate_recall (self : EvalResult) : M (list string) MetricsResult :=
  ret {[ "recall" := MNone ]}.

Definition _calculate_map (self : EvalResult) : M (list string) MetricsResult :=
  ret {[ "mean_average_precision" := MNone ]}.

Definition _calculate_mrr (self : EvalResult) : M (list string) MetricsResult :=
  ret {[ "mean_reciprocal_rank" := MNone ]}.

Definition num_same (label_toks pred_toks : list string) : nat :=
  let common := Counter.__and__ (Counter.of_list label_toks) (Counter.of_list pred_toks) in
  Counter.sum_values common.

Definition _compute_f1_single (label_toks pred_toks : list string) : Q :=
  let num_same := num_same label_toks pred_toks in
  if (length label_toks =? 0) || (length pred_toks =? 0) then
    (* int(label_toks == pred_toks) *)
    if bool_decide (label_toks = pred_toks) then 1%Q else 0%Q
  else if num_same =? 0 then 0%Q
  else
    let precision := (1 * QofNat num_same / QofNat (length pred_toks))%Q in
    let recall := (1 * QofNat num_same / QofNat (length label_toks))%Q in
    let f1 := ((2 * precision * recall) / (precision + recall))%Q in
    f1.

(** Modelled from the spec: [preprocess_text] of
    [haystack.evaluation.eval_utils], which is not among the sources. It
    returns a sequence of the same length, each string transformed on its
    own ([normalize]). *)
Definition preprocess_text (texts : list string) (opts : TextOptions) : list string :=
  normalize opts <$> texts.

Definition _calculate_f1 (self : EvalResult) (output_key : PyVal) (opts : TextOptions)
    : M (list string) MetricsResult :=
  let* predictions := call "get_answers_from_output"
      (get_answers_from_output (outputs self) output_key (runnable_type self)) in
  let* labels := call "get_answers_from_output"
      (get_answers_from_output (expected_outputs self) output_key (runnable_type self)) in
  if negb (length predictions =? length labels) then raise (ValueError mismatch_msg)
  else if (length predictions =? length labels) && (length labels =? 0) then
    ret {[ "f1" := MFloat 0 ]}
  else
    let* predictions := call "preprocess_text" (Ok (preprocess_text predictions opts)) in
    let* labels := call "preprocess_text" (Ok (preprocess_text labels opts)) in
    let tokenized_predictions := PyStr.split <$> predictions in
    let tokenized_labels := PyStr.split <$> labels in
    let f1_scores :=
      (λ '(label_toks, pred_toks), _compute_f1_single label_toks pred_toks)
        <$> zip tokenized_labels tokenized_predictions in
    let f1 := np_mean f1_scores in
    ret {[ "f1" := f1 ]}.

(** [np.array(predictions) == np.array(labels)] on two lists of one
    length: the element-wise comparison of two fixed-width string arrays.
    Their elements are padded with NUL characters, so two strings compare
    equal when they are the same up to trailing NULs. *)
Definition np_array_eq (xs ys : list string) : list bool :=
  (λ '(x, y), bool_decide (PyStr.rstrip_nul x = PyStr.rstrip_nul y)) <$> zip xs ys.

Definition _calculate_em (self : EvalResult) (output_key : PyVal) (opts : TextOptions)
    : M (list string) MetricsResult :=
  let* predictions := call "get_answers_from_output"
      (get_answers_from_output (outputs self) output_key (runnable_type self)) in
  let* labels := call "get_answers_from_output"
      (get_answers_from_output (expected_outputs self) output_key (runnable_type self)) in
  if negb (length predictions =? length labels) then raise (ValueError mismatch_msg)
  else if (length predictions =? length labels) && (length labels =? 0) then
    ret {[ "exact_match" := MFloat 0 ]}
  else
    let* predictions := call "preprocess_text" (Ok (preprocess_text predictions opts)) in
    let* labels := call "preprocess_text" (Ok (preprocess_text labels opts)) in
    let score_list := np_array_eq predictions labels in
    let exact_match_score :=
      np_mean ((λ b : bool, if b then 1%Q else 0%Q) <$> score_list) in
    ret {[ "exact_match" := exact_match_score ]}.

(** [scores[i][i].item()]: indexing outside the matrix raises. *)
Definition diag_item (scores : list (list Q)) (i : nat) : Result Q :=
  match scores !! i with
  | Some row =>
      match row !! i with
      | Some x => Ok x
      | None => Err (Raised "IndexError" "index out of range")
      end
  | None => Err (Raised "IndexError" "index out of range")
  end.

Definition _calculate_sas (self : EvalResult) (output_key : PyVal) (opts : TextOptions)
    (model batch_size device token : PyVal) : M (list string) MetricsResult :=
  let* _ := call "metrics_import.check" metrics_import_check in
  let* predictions := call "get_answers_from_output"
      (get_answers_from_output (outputs self) output_key (runnable_type self)) in
  let* labels := call "get_answers_from_output"
      (get_answers_from_output (expected_outputs self) output_key (runnable_type self)) in
  if negb (length predictions =? length labels) then raise (ValueError mismatch_msg)
  else if (length predictions =? length labels) && (length labels =? 0) then
    ret {[ "sas" := MFloat 0; "scores" := MFloats [0%Q] ]}
  else
    let* predictions := call "preprocess_text" (Ok (preprocess_text predictions opts)) in
    let* labels := call "preprocess_text" (Ok (preprocess_text labels opts)) in
    let* config := call "AutoConfig.from_pretrained"
        (AutoConfig_from_pretrained model token) in
    let cross_encoder_used :=
      match architectures config with
      | None | Some [] => false
      | Some archs =>
          existsb (λ arch, PyStr.endswith arch "ForSequenceClassification") archs
      end in
    let* device := call "ComponentDevice.resolve_device" (resolve_device device) in
    let* similarity_scores :=
      if cross_encoder_used then
        let* similarity_model := call "CrossEncoder"
            (CrossEncoder_new model (to_torch_str device) token) in
        let sentence_pairs := zip predictions labels in
        let* similarity_scores := call "predict"
            (predict similarity_model sentence_pairs batch_size) in
        let similarity_scores :=
          if existsb Qgt1 similarity_scores
          then expit <$> similarity_scores
          else similarity_scores in
        ret similarity_scores
      else
        let* similarity_model := call "SentenceTransformer"
            (SentenceTransformer_new model (to_torch_str device) token) in
        let* pred_embeddings := call "encode"
            (encode similarity_model predictions batch_size) in
        let* label_embeddings := call "encode"
            (encode similarity_model labels batch_size) in
        let* scores := call "util.cos_sim" (cos_sim pred_embeddings label_embeddings) in
        for_each (seq 0 (length predictions))
          (λ acc i, let* x := (λ w, (w, diag_item scores i)) in ret (acc ++ [x])) []
    in
    let sas_score := np_mean similarity_scores in
    ret {[ "sas" := sas_score; "scores" := MFloats similarity_scores ]}.

(** The metric argument of [calculate_metrics]: a member of [Metric], or
    a function of the result object and the keyword arguments. *)
Inductive MetricArg : Type :=
  | Builtin (m : Metric)
  | Custom (f : EvalResult → gmap string PyVal → M (list string) MetricsResult).

Definition text_params : list string :=
  ["output_key"; "regexes_to_ignore"; "ignore_case"; "ignore_punctuation"; "ignore_numbers"].

Definition sas_params : list string :=
  text_params ++ ["model"; "batch_size"; "device"; "token"].

Definition text_options (kwargs : gmap string PyVal) : TextOptions :=
  {| regexes_to_ignore := arg kwargs "regexes_to_ignore" VNone;
     ignore_case := arg kwargs "ignore_case" (VBool false);
     ignore_punctuation := arg kwargs "ignore_punctuation" (VBool false);
     ignore_numbers := arg kwargs "ignore_numbers" (VBool false) |}.

(** The table [self._supported_metrics] of [__init__], and the call of
    the method found there with the keyword arguments. *)
Definition _supported_metrics (self : EvalResult) (metric : Metric)
    (kwargs : gmap string PyVal) : M (list string) MetricsResult :=
  match metric with
  | RECALL =>
      let* _ := (λ w, (w, bind_kwargs [] [] kwargs)) in _calculate_recall self
  | MRR =>
      let* _ := (λ w, (w, bind_kwargs [] [] kwargs)) in _calculate_mrr self
  | MAP =>
      let* _ := (λ w, (w, bind_kwargs [] [] kwargs)) in _calculate_map self
  | F1 =>
      let* _ := (λ w, (w, bind_kwargs text_params ["output_key"] kwargs)) in
      _calculate_f1 self (arg kwargs "output_key" VNone) (text_options kwargs)
  | EM =>
      let* _ := (λ w, (w, bind_kwargs text_params ["output_key"] kwargs)) in
      _calculate_em self (arg kwargs "output_key" VNone) (text_options kwargs)
  | SAS =>
      let* _ := (λ w, (w, bind_kwargs sas_params ["output_key"] kwargs)) in
      _calculate_sas self (arg kwargs "output_key" VNone) (text_options kwargs)
        (arg kwargs "model"
           (VStr "sentence-transformers/paraphrase-multilingual-mpnet-base-v2"))
        (arg kwargs "batch_size" (VInt 32))
        (arg kwargs "device" VNone)
        (arg kwargs "token" VNone)
  end.

Definition calculate_metrics (self : EvalResult) (metric : MetricArg)
    (kwargs : gmap string PyVal) : M (list string) MetricsResult :=
  match metric with
  | Builtin m => _supported_metrics self m kwargs
  | Custom f => f self kwargs
  end.

(** [runnable.run(input_)]: the runnable's state moves on and the input
    joins the record of invocations. *)
Definition invoke (runnable : Runnable S Input Output) (input_ : Input)
    : M (EvalWorld S Input) Output :=
  λ w, let '(s', r) := run runnable (rstate w) input_ in
       ({| rstate := s'; invoked := invoked w ++ [input_] |}, r).

Definition eval (runnable : Runnable S Input Output) (inputs : list Input)
    (expected_outputs : list Output) : M (EvalWorld S Input) EvalResult :=
  let outputs := [] in
  if negb (length inputs =? length expected_outputs) then
    raise (ValueError
      ("The number of inputs (" +:+ pretty (length inputs)
       +:+ ") does not match the number of expected outputs ("
       +:+ pretty (length expected_outputs)
       +:+ "). Please ensure that each input has a corresponding expected output."))
  else
    let* outputs :=
      for_each inputs
        (λ outputs input_,
           let* output := invoke runnable input_ in ret (outputs ++ [output]))
        outputs in
    ret (__init__ runnable inputs outputs expected_outputs).

End Evaluation.

(** ** [haystack/components/converters/docx.py] *)

Module ByteStream.
Record t : Type := { data : list Byte.byte; meta : gmap string PyVal }.
End ByteStream.

Module Document.
Record t : Type := { content : string; meta : gmap string PyVal }.
End Document.

Module Docx.

(** A source: a path given as [str] or as [Path], or a [ByteStream]. *)
Inductive Source : Type :=
  | SrcStr (path : string)
  | SrcPath (path : string)
  | SrcByteStream (bs : ByteStream.t).

(** What is read of a parsed [docx.Document]: the paragraph texts and the
    attributes of [core_properties] (an absent key: no such attribute). *)
Record DocxDocument : Type := {
  paragraphs : list string;
  core_properties : gmap string PyVal
}.

(** The [meta] argument of [run]. *)
Inductive MetaArg : Type :=
  | MetaNone
  | MetaDict (d : gmap string PyVal)
  | MetaList (l : list (gmap string PyVal)).

(** A record of the logger at level warning. *)
Record Warning : Type := {
  template : string;
  w_source : Source;
  w_error : Exn
}.

(** What [docx.py] imports and calls outside the sources: reading a
    source and the parser of [python-docx]; both may raise. *)
Class Imports : Type := {
  get_bytestream_from_source : Source → Result ByteStream.t;
  docx_Document : list Byte.byte → Result DocxDocument
}.

(** Modelled from the spec: [normalize_metadata] of
    [haystack.components.converters.utils], which is not among the
    sources. A single dictionary applies to every source, a list must be
    as long as [sources], no metadata is an empty dictionary each. *)
Definition normalize_metadata (meta : MetaArg) (sources_count : nat)
    : Result (list (gmap string PyVal)) :=
  match meta with
  | MetaNone => Ok (replicate sources_count ∅)
  | MetaDict d => Ok (replicate sources_count d)
  | MetaList l =>
      if bool_decide (sources_count = length l) then Ok l
      else Err (ValueError
             "The length of the metadata list must match the number of sources.")
  end.

Definition props : list string :=
  [ "author"; "category"; "comments"; "content_status"; "created";
    "identifier"; "keywords"; "language"; "last_modified_by"; "last_printed";
    "modified"; "revision"; "subject"; "title"; "version" ].

(** [value is not None and value != ""] *)
Definition present (value : PyVal) : bool :=
  match value with
  | VNone => false
  | VStr "" => false
  | _ => true
  end.

Definition _get_docx_metadata (document : DocxDocument) : gmap string PyVal :=
  foldl (λ docx_meta prop,
           match core_properties document !! prop with
           | Some value =>
               if present value then <["docx_" +:+ prop := value]> docx_meta
               else docx_meta
           | None => docx_meta
           end) ∅ props.

Section Converter.
Context `{!Imports}.

Definition logger_warning (template : string) (source : Source) (error : Exn)
    : M (list Warning) unit :=
  λ log, (log ++ [{| template := template; w_source := source; w_error := error |}],
          Ok tt).

(** The second [try] block: parse and join the paragraph texts. *)
Definition read_docx (bytestream : ByteStream.t) : Result (DocxDocument * string) :=
  match docx_Document (ByteStream.data bytestream) with
  | Ok file =>
      let paragraphs := paragraphs file in
      let text := PyStr.join PyStr.newline paragraphs in
      Ok (file, text)
  | Err e => Err e
  end.

Definition run (sources : list Source) (meta : MetaArg)
    : M (list Warning) (gmap string (list Document.t)) :=
  let documents := [] in
  let* meta_list := (λ w, (w, normalize_metadata meta (length sources))) in
  let* documents :=
    for_each (zip sources meta_list)
      (λ documents '(source, metadata),
         match get_bytestream_from_source source with
         | Err e =>
             let* _ := logger_warning
                 "Could not read {source}. Skipping it. Error: {error}" source e in
             ret documents
         | Ok bytestream =>
             match read_docx bytestream with
             | Err e =>
                 let* _ := logger_warning
                     "Could not read {source} and convert it to a Docx Document, skipping. Error: {error}"
                     source e in
                 ret documents
             | Ok (file, text) =>
                 let docx_meta := _get_docx_metadata file in
                 (* {**bytestream.meta, **docx_meta, **metadata} *)
                 let merged_metadata :=
                   metadata ∪ (docx_meta ∪ ByteStream.meta bytestream) in
                 let document :=
                   {| Document.content := text; Document.meta := merged_metadata |} in
                 ret (documents ++ [document])
             end
         end)
      documents in
  ret {[ "documents" := documents ]}.

(** *** Reference definitions, in the words of the specification *)

(** A source is successfully parsed when it is read and its bytes are
    parsed as a docx file. *)
Definition parsed (source : Source) : option (ByteStream.t * DocxDocument) :=
  match get_bytestream_from_source source with
  | Ok bytestream =>
      match docx_Document (ByteStream.data bytestream) with
      | Ok file => Some (bytestream, file)
      | Err _ => None
      end
  | Err _ => None
  end.

(** The Document of a source with its metadata, when it is parsed. *)
Definition document_of (sm : Source * gmap string PyVal) : option Document.t :=
  match parsed sm.1 with
  | Some (bytestream, file) =>
      Some {| Document.content := PyStr.join PyStr.newline (paragraphs file);
              Document.meta :=
                sm.2 ∪ (_get_docx_metadata file ∪ ByteStream.meta bytestream) |}
  | None => None
  end.

(** The warning about a source, when it is not parsed. *)
Definition warning_of (source : Source) : option Warning :=
  match get_bytestream_from_source source with
  | Err e =>
      Some {| template := "Could not read {source}. Skipping it. Error: {error}";
              w_source := source; w_error := e |}
  | Ok bytestream =>
      match docx_Document (ByteStream.data bytestream) with
      | Err e =>
          Some {| template :=
                    "Could not read {source} and convert it to a Docx Document, skipping. Error: {error}";
                  w_source := source; w_error := e |}
      | Ok _ => None
      end
  end.

End Converter.

End Docx.

(** ** Reference definitions, in the words of the specification *)

(** A [Counter] stands for a multiset: a key is present exactly when its
    multiplicity is positive, and holds it. *)
Definition counts (c : gmap string nat) (X : gmultiset string) : Prop :=
  ∀ t, c !! t = if decide (multiplicity t X = 0) then None else Some (multiplicity t X).

(** The multiset intersection of two token lists. *)
Definition common_tokens (pred_tokens label_tokens : list string) : gmultiset string :=
  list_to_set_disj pred_tokens ∩ list_to_set_disj label_tokens.

(** The per-sample F1 of the specification, from the token lists. *)
Definition f1_spec (pred_tokens label_tokens : list string) : Q :=
  let num_same := size (common_tokens pred_tokens label_tokens) in
  if bool_decide (pred_tokens = [] ∨ label_tokens = []) then
    if bool_decide (pred_tokens = [] ∧ label_tokens = []) then 1%Q else 0%Q
  else if bool_decide (num_same = 0) then 0%Q
  else
    let precision := (QofNat num_same / QofNat (length pred_tokens))%Q in
    let recall := (QofNat num_same / QofNat (length label_tokens))%Q in
    (2 * precision * recall / (precision + recall))%Q.

(** The number of indices at which two sequences hold the same string. *)
Definition exact_matches (xs ys : list string) : nat :=
  length (filter (λ i, xs !! i = ys !! i) (seq 0 (length xs))).

(** The number of indices at which two sequences hold strings that are the
    same up to trailing NUL characters. *)
Definition padded_matches (xs ys : list string) : nat :=
  exact_matches (PyStr.rstrip_nul <$> xs) (PyStr.rstrip_nul <$> ys).

(** The runnable invoked on each input in turn, every invocation starting
    from the state the one before has left; the outputs in the order of
    the inputs, or the first exception. *)
Fixpoint run_in_order {S Input Output} (r : Runnable S Input Output) (s : S)
    (inputs : list Input) : S * Result (list Output) :=
  match inputs with
  | [] => (s, Ok [])
  | input_ :: rest =>
      match run r s input_ with
      | (s', Ok output) =>
          match run_in_order r s' rest with
          | (s'', Ok outputs) => (s'', Ok (output :: outputs))
          | (s'', Err e) => (s'', Err e)
          end
      | (s', Err e) => (s', Err e)
      end
  end.

(** The number of invocations [run_in_order] makes. *)
Fixpoint invocations {S Input Output} (r : Runnable S Input Output) (s : S)
    (inputs : list Input) : nat :=
  match inputs with
  | [] => 0
  | input_ :: rest =>
      match run r s input_ with
      | (s', Ok _) => 1 + invocations r s' rest
      | (_, Err _) => 1
      end
  end.

(** The key under which each unimplemented metric reports. *)
Definition stub_key (m : Metric) : option string :=
  match m with
  | RECALL => Some "recall"
  | MRR => Some "mean_reciprocal_rank"
  | MAP => Some "mean_average_precision"
  | _ => None
  end.

(** The keyword parameters of the method behind each metric. *)
Definition metric_params (m : Metric) : list string :=
  match m with
  | RECALL | MRR | MAP => []
  | F1 | EM => text_params
  | SAS => sas_params
  end.

(** ** A concrete environment, on which the definitions run *)

Module Demo.

(** Each output is its answer; no normalization; a cross-encoder that
    scores equal pairs 3 and the others 1/2; [squash] is a rational
    stand-in for the logistic function. *)
Definition squash (x : Q) : Q := (1 # 2) + x / (2 * (1 + Qabs x)).

Definition imports : Imports string := {|
  get_answers_from_output := λ outs _ _, Ok outs;
  normalize := λ _ text, text;
  metrics_import_check := Ok ();
  AutoConfig_from_pretrained := λ _ _,
    Ok {| architectures := Some ["BertForSequenceClassification"] |};
  Device := unit;
  resolve_device := λ _, Ok ();
  to_torch_str := λ _, "cpu";
  CrossEncoder := unit;
  CrossEncoder_new := λ _ _ _, Ok ();
  predict := λ _ pairs _,
    Ok ((λ '(pred, label), if bool_decide (pred = label) then 3 else 1 # 2)%Q <$> pairs);
  SentenceTransformer := unit;
  SentenceTransformer_new := λ _ _ _, Ok ();
  Embeddings := list string;
  encode := λ _ texts _, Ok texts;
  cos_sim := λ preds labels,
    Ok ((λ pred, (λ label, if bool_decide (pred = label) then 1 else 0)%Q <$> labels)
          <$> preds);
  expit := squash
|}.

(** A component that counts its invocations and answers with its input,
    except on ["boom"], where it raises. *)
Definition echo : Runnable nat string string :=
  {| type_name := "Echo";
     run := λ n input_,
       (n + 1, if bool_decide (input_ = "boom")
               then Err (Raised "RuntimeError" "boom") else Ok input_) |}.

Definition result : EvaluationResult nat string string :=
  __init__ echo ["capital?"; "days?"] ["Paris"; "7"] ["Paris"; "seven"].

(** Result objects built directly: answer lists of different lengths,
    and no sample at all. *)
Definition mismatched : EvaluationResult nat string string :=
  __init__ echo ["capital?"; "days?"] ["Paris"; "7"] ["Paris"].

Definition empty : EvaluationResult nat string string :=
  __init__ echo [] [] [].

Definition fresh : EvalWorld nat string := {| rstate := 0; invoked := [] |}.

Definition opts : TextOptions := text_options ∅.

Definition key : PyVal := VStr "answers".

(** A file system with one unreadable path, and a parser that accepts
    the bytes starting with "PK". *)
Definition sample_docx : Docx.DocxDocument :=
  {| Docx.paragraphs := ["History"; "and standardization"];
     Docx.core_properties :=
       {[ "author" := VStr "Microsoft Office User"; "revision" := VInt 2;
          "title" := VStr ""; "subject" := VNone; "language" := VStr "en" ]} |}.

Definition docx_imports : Docx.Imports := {|
  Docx.get_bytestream_from_source := λ source,
    match source with
    | Docx.SrcByteStream bs => Ok bs
    | Docx.SrcStr path | Docx.SrcPath path =>
        if bool_decide (path = "non_existing_file.docx")
        then Err (Raised "FileNotFoundError" path)
        else if bool_decide (path = "doc_1.txt")
        then Ok {| ByteStream.data := [Byte.x54; Byte.x78];
                   ByteStream.meta := {[ "file_path" := VStr path ]} |}
        else Ok {| ByteStream.data := [Byte.x50; Byte.x4b];
                   ByteStream.meta := {[ "file_path" := VStr path ]} |}
    end;
  Docx.docx_Document := λ data,
    match data with
    | Byte.x50 :: Byte.x4b :: _ => Ok sample_docx
    | _ => Err (Raised "BadZipFile" "File is not a zip file")
    end
|}.

(** What reading the path "sample_docx_1.docx" gives. *)
Definition sample_bytestream : ByteStream.t :=
  {| ByteStream.data := [Byte.x50; Byte.x4b];
     ByteStream.meta := {[ "file_path" := VStr "sample_docx_1.docx" ]} |}.

Definition sources : list Docx.Source :=
  [ Docx.SrcStr "non_existing_file.docx"; Docx.SrcPath "sample_docx_1.docx";
    Docx.SrcStr "doc_1.txt" ].

Definition overrides : gmap string PyVal :=
  {[ "docx_language" := VStr "it"; "docx_author" := VStr "test_author" ]}.

End Demo.

(** The same environment with the import guard, the answer extraction and
    the model configuration as given, to run the failing paths and the
    bi-encoder path. *)
Module Faulty.

Definition imports (guard : Result unit)
    (extract : list string → Result (list string)) (config : Result Config)
    : Imports string := {|
  get_answers_from_output := λ outs _ _, extract outs;
  normalize := λ _ text, text;
  metrics_import_check := guard;
  AutoConfig_from_pretrained := λ _ _, config;
  Device := unit;
  resolve_device := λ _, Ok ();
  to_torch_str := λ _, "cpu";
  CrossEncoder := unit;
  CrossEncoder_new := λ _ _ _, Ok ();
  predict := λ _ pairs _,
    Ok ((λ '(pred, label), if bool_decide (pred = label) then 3 else 1 # 2)%Q <$> pairs);
  SentenceTransformer := unit;
  SentenceTransformer_new := λ _ _ _, Ok ();
  Embeddings := list string;
  encode := λ _ texts _, Ok texts;
  cos_sim := λ preds labels,
    Ok ((λ pred, (λ label, if bool_decide (pred = label) then 1 else 0)%Q <$> labels)
          <$> preds);
  expit := Demo.squash
|}.

(** An extraction that fails on the expected outputs ["?"]. *)
Definition extract (outs : list string) : Result (list string) :=
  if bool_decide (outs = ["?"]) then Err (Raised "KeyError" "answers") else Ok outs.

Definition unlabelled : EvaluationResult nat string string :=
  __init__ Demo.echo ["capital?"] ["Paris"] ["?"].

Definition bi_encoder : Config := {| architectures := Some ["XLMRobertaModel"] |}.

End Faulty.

(** A prediction that differs from its label by a trailing NUL character. *)
Module Padding.

Definition nul : string := String Ascii.zero "".

Definition padded : EvaluationResult nat string string :=
  __init__ Demo.echo ["letter?"] ["a" +:+ nul] ["a"].

End Padding.

(** The concrete environment with a normalizer that lowers the letters A to
    Z when [ignore_case] is [True], as the second step of [preprocess_text]
    does. *)
Module Lowering.

Definition lower_char (c : ascii) : ascii :=
  let n := nat_of_ascii c in
  if (65 <=? n) && (n <=? 90) then ascii_of_nat (n + 32) else c.

Fixpoint lower (s : string) : string :=
  match s with
  | EmptyString => EmptyString
  | String c s' => String (lower_char c) (lower s')
  end.

Definition imports : Imports string := {|
  get_answers_from_output := λ outs _ _, Ok outs;
  normalize := λ opts text,
    match ignore_case opts with
    | VBool true => lower text
    | _ => text
    end;
  metrics_import_check := Ok ();
  AutoConfig_from_pretrained := λ _ _,
    Ok {| architectures := Some ["BertForSequenceClassification"] |};
  Device := unit;
  resolve_device := λ _, Ok ();
  to_torch_str := λ _, "cpu";
  CrossEncoder := unit;
  CrossEncoder_new := λ _ _ _, Ok ();
  predict := λ _ pairs _,
    Ok ((λ '(pred, label), if bool_decide (pred = label) then 3 else 1 # 2)%Q <$> pairs);
  SentenceTransformer := unit;
  SentenceTransformer_new := λ _ _ _, Ok ();
  Embeddings := list string;
  encode := λ _ texts _, Ok texts;
  cos_sim := λ preds labels,
    Ok ((λ pred, (λ label, if bool_decide (pred = label) then 1 else 0)%Q <$> labels)
          <$> preds);
  expit := Demo.squash
|}.

Definition ignoring_case : TextOptions :=
  {| regexes_to_ignore := VNone; ignore_case := VBool true;
     ignore_punctuation := VBool false; ignore_numbers := VBool false |}.

Definition first_run : EvaluationResult nat string string :=
  __init__ Demo.echo ["capital?"; "days?"] ["Paris"; "7 Days"] ["paris"; "seven"].

Definition second_run : EvaluationResult nat string string :=
  __init__ Demo.echo ["capital?"; "days?"] ["PARIS"; "7 days"] ["Paris"; "Seven"].

End Lowering.

(** * Properties *)

(** ** Counters and multisets *)

Lemma counts_empty : counts ∅ ∅.
Proof. intros t. rewrite lookup_empty, multiplicity_empty. done. Qed.

Lemma counts_update c X t :
  counts c X → counts (Counter.update c t) ({[+ t +]} ⊎ X).
Proof.
  intros Hc u. unfold Counter.update.
  rewrite multiplicity_disj_union, multiplicity_singleton.
  destruct (decide (u = t)) as [->|Hne].
  - rewrite lookup_insert_eq, (Hc t).
    repeat case_decide; simpl; try lia; f_equal; lia.
  - rewrite lookup_insert_ne by done. rewrite (Hc u). simpl. done.
Qed.

Lemma counts_foldl l c X :
  counts c X → counts (foldl Counter.update c l) (list_to_set_disj l ⊎ X).
Proof.
  revert c X. induction l as [|t l IH]; intros c X Hc.
  - rewrite list_to_set_disj_nil. by rewrite (left_id_L ∅ (⊎)).
  - rewrite list_to_set_disj_cons. cbn [foldl].
    replace ({[+ t +]} ⊎ list_to_set_disj l ⊎ X)
      with (list_to_set_disj l ⊎ ({[+ t +]} ⊎ X)) by multiset_solver.
    apply IH. by apply counts_update.
Qed.

Lemma counts_of_list l : counts (Counter.of_list l) (list_to_set_disj l).
Proof.
  unfold Counter.of_list.
  rewrite <- (right_id_L ∅ (⊎) (list_to_set_disj l)).
  apply counts_foldl, counts_empty.
Qed.

Lemma counts_get c X t : counts c X → Counter.get c t = multiplicity t X.
Proof.
  intros Hc. unfold Counter.get. rewrite (Hc t).
  destruct (decide (multiplicity t X = 0)); simpl; lia.
Qed.

Lemma counts_and c1 c2 X Y :
  counts c1 X → counts c2 Y → counts (Counter.__and__ c1 c2) (X ∩ Y).
Proof.
  intros H1 H2 t. unfold Counter.__and__.
  rewrite map_lookup_imap, multiplicity_intersection, (H1 t).
  rewrite (counts_get c2 Y) by done.
  destruct (decide (multiplicity t X = 0)) as [E|E]; simpl.
  - rewrite E. simpl. done.
  - destruct (Nat.ltb_spec (multiplicity t X) (multiplicity t Y)).
    + rewrite Nat.min_l by lia.
      destruct (Nat.ltb_spec 0 (multiplicity t X)); [|lia].
      case_decide; [lia | done].
    + rewrite Nat.min_r by lia.
      destruct (Nat.ltb_spec 0 (multiplicity t Y)); case_decide; (done || lia).
Qed.

Lemma sum_values_insert (c : gmap string nat) t n :
  c !! t = None → Counter.sum_values (<[t := n]> c) = n + Counter.sum_values c.
Proof.
  intros Hn. unfold Counter.sum_values.
  rewrite (map_to_list_insert c t n Hn). done.
Qed.

Lemma counts_sum_values c X : counts c X → Counter.sum_values c = size X.
Proof.
  revert X. induction c as [|t n c Hn IH] using map_ind; intros X Hc.
  - assert (X = ∅) as ->.
    { apply gmultiset_eq. intros u. specialize (Hc u).
      rewrite lookup_empty in Hc. rewrite multiplicity_empty.
      destruct (decide (multiplicity u X = 0)); [done | discriminate]. }
    unfold Counter.sum_values. rewrite map_to_list_empty.
    symmetry. apply gmultiset_size_empty.
  - rewrite sum_values_insert by done.
    assert (multiplicity t X = n ∧ n ≠ 0) as [Hm Hpos].
    { specialize (Hc t). rewrite lookup_insert_eq in Hc.
      destruct (decide (multiplicity t X = 0)); [discriminate|]. split; congruence. }
    set (X' := X ∖ (n *: {[+ t +]})).
    assert (X = n *: {[+ t +]} ⊎ X') as HX.
    { apply gmultiset_eq. intros u. unfold X'.
      rewrite multiplicity_disj_union, multiplicity_difference,
        multiplicity_scalar_mul, multiplicity_singleton.
      destruct (decide (u = t)) as [->|]; lia. }
    assert (counts c X') as Hc'.
    { intros u. unfold X'.
      rewrite multiplicity_difference, multiplicity_scalar_mul, multiplicity_singleton.
      destruct (decide (u = t)) as [->|Hne].
      - rewrite Hn, decide_True by lia. done.
      - specialize (Hc u). rewrite lookup_insert_ne in Hc by done.
        rewrite Hc. replace (multiplicity u X - n * 0) with (multiplicity u X) by lia.
        done. }
    rewrite (IH X' Hc').
    transitivity (size (n *: {[+ t +]} ⊎ X')); [|by rewrite <- HX].
    rewrite gmultiset_size_disj_union, gmultiset_size_scalar_mul, gmultiset_size_singleton.
    lia.
Qed.

Lemma size_list_to_set_disj (l : list string) :
  size (list_to_set_disj l : gmultiset string) = length l.
Proof.
  induction l as [|t l IH].
  - by rewrite list_to_set_disj_nil, gmultiset_size_empty.
  - rewrite list_to_set_disj_cons, gmultiset_size_disj_union, gmultiset_size_singleton.
    cbn [length]. lia.
Qed.

(** ** The token overlap *)

Lemma num_same_common label_toks pred_toks :
  num_same label_toks pred_toks = size (common_tokens pred_toks label_toks).
Proof.
  unfold num_same, common_tokens.
  rewrite (comm_L (∩) (list_to_set_disj pred_toks)).
  apply counts_sum_values, counts_and; apply counts_of_list.
Qed.

Lemma num_same_le_label label_toks pred_toks :
  num_same label_toks pred_toks ≤ length label_toks.
Proof.
  rewrite num_same_common, <- (size_list_to_set_disj label_toks).
  apply gmultiset_subseteq_size. unfold common_tokens. multiset_solver.
Qed.

Lemma num_same_le_pred label_toks pred_toks :
  num_same label_toks pred_toks ≤ length pred_toks.
Proof.
  rewrite num_same_common, <- (size_list_to_set_disj pred_toks).
  apply gmultiset_subseteq_size. unfold common_tokens. multiset_solver.
Qed.

(** ** Rational arithmetic of the scores *)

Lemma QofNat_le n m : n ≤ m → (QofNat n <= QofNat m)%Q.
Proof. intros H. unfold QofNat. rewrite <- Zle_Qle. lia. Qed.

Lemma QofNat_pos n : 0 < n → (0 < QofNat n)%Q.
Proof. intros H. unfold QofNat. change 0%Q with (inject_Z 0). rewrite <- Zlt_Qlt. lia. Qed.

Lemma ratio_unit n m : 0 < n → n ≤ m → (0 < 1 * QofNat n / QofNat m <= 1)%Q.
Proof.
  intros Hn Hm.
  pose proof (QofNat_pos n Hn) as Hn'.
  pose proof (QofNat_pos m ltac:(lia)) as Hm'.
  pose proof (QofNat_le n m Hm) as Hle.
  split.
  - apply Qlt_shift_div_l; [done|]. lra.
  - apply Qle_shift_div_r; [done|]. lra.
Qed.

Lemma harmonic_unit (p r : Q) :
  (0 < p <= 1)%Q → (0 < r <= 1)%Q → (0 <= 2 * p * r / (p + r) <= 1)%Q.
Proof.
  intros [Hp0 Hp1] [Hr0 Hr1].
  assert (0 < p + r)%Q as Hs by lra.
  split.
  - apply Qle_shift_div_l; [done|]. nra.
  - apply Qle_shift_div_r; [done|]. nra.
Qed.

Lemma compute_f1_single_unit label_toks pred_toks :
  (0 <= _compute_f1_single label_toks pred_toks <= 1)%Q.
Proof.
  unfold _compute_f1_single.
  destruct ((length label_toks =? 0) || (length pred_toks =? 0)) eqn:He.
  - case_bool_decide; lra.
  - apply orb_false_iff in He as [Hl Hp].
    apply Nat.eqb_neq in Hl, Hp.
    destruct (Nat.eqb_spec (num_same label_toks pred_toks) 0) as [|Hn]; [lra|].
    apply harmonic_unit; apply ratio_unit;
      auto using num_same_le_label, num_same_le_pred with lia.
Qed.

Lemma compute_f1_single_spec label_toks pred_toks :
  (_compute_f1_single label_toks pred_toks == f1_spec pred_toks label_toks)%Q.
Proof.
  unfold _compute_f1_single, f1_spec.
  rewrite <- num_same_common.
  destruct label_toks as [|l ls], pred_toks as [|p ps]; simpl; try reflexivity.
  destruct (Nat.eqb_spec (num_same (l :: ls) (p :: ps)) 0) as [E|E].
  - rewrite bool_decide_true by done. reflexivity.
  - rewrite bool_decide_false by done.
    rewrite !Qmult_1_l. reflexivity.
Qed.

Lemma Qsum_unit (xs : list Q) :
  Forall (λ x, 0 <= x <= 1)%Q xs → (0 <= Qsum xs <= QofNat (length xs))%Q.
Proof.
  induction 1 as [|x xs Hx _ IH]; cbn [Qsum foldr length].
  - change (0 <= 0 <= 0)%Q. lra.
  - fold (Qsum xs). unfold QofNat in *. rewrite Nat2Z.inj_succ, <- Z.add_1_r, inject_Z_plus.
    change (inject_Z 1) with 1%Q. lra.
Qed.

Lemma mean_unit (xs : list Q) :
  xs ≠ [] → Forall (λ x, 0 <= x <= 1)%Q xs →
  (0 <= Qsum xs / QofNat (length xs) <= 1)%Q.
Proof.
  intros Hne Hxs. pose proof (Qsum_unit xs Hxs) as [H0 H1].
  assert (0 < QofNat (length xs))%Q as Hpos.
  { apply QofNat_pos. destruct xs; [done | simpl; lia]. }
  split.
  - apply Qle_shift_div_l; [done|]. lra.
  - apply Qle_shift_div_r; [done|]. lra.
Qed.

Lemma np_mean_nonempty xs :
  xs ≠ [] → np_mean xs = MFloat (Qsum xs / QofNat (length xs)).
Proof. destruct xs; [done | reflexivity]. Qed.

(** ** Counting exact matches *)

Lemma length_filter_fmap {A B} (f : A → B) (P : B → Prop)
    `{!∀ x, Decision (P x)} (l : list A) :
  length (filter P (f <$> l)) = length (filter (λ x, P (f x)) l).
Proof.
  induction l as [|a l IH]; [done|].
  rewrite fmap_cons, !filter_cons. destruct (decide (P (f a))); simpl; lia.
Qed.

Lemma exact_matches_cons x xs y ys :
  exact_matches (x :: xs) (y :: ys)
  = (if bool_decide (x = y) then 1 else 0) + exact_matches xs ys.
Proof.
  unfold exact_matches. cbn [length seq].
  rewrite <- fmap_S_seq, filter_cons.
  destruct (decide ((x :: xs) !! 0 = (y :: ys) !! 0)) as [E|E];
    cbn [length]; rewrite length_filter_fmap; simpl in E;
    case_bool_decide; simplify_eq; done.
Qed.

Lemma exact_matches_le xs ys : exact_matches xs ys ≤ length xs.
Proof.
  unfold exact_matches.
  etransitivity; [apply length_filter|]. by rewrite length_seq.
Qed.

Lemma Qsum_np_array_eq xs ys :
  length xs = length ys →
  (Qsum ((λ b : bool, if b then 1 else 0) <$> np_array_eq xs ys)
   == QofNat (padded_matches xs ys))%Q.
Proof.
  unfold padded_matches.
  revert ys. induction xs as [|x xs IH]; intros [|y ys] Hlen; try done.
  rewrite !fmap_cons, exact_matches_cons. unfold np_array_eq in *.
  cbn [zip_with fmap list_fmap Qsum foldr].
  fold (Qsum ((λ b : bool, if b then 1%Q else 0%Q)
                <$> ((λ '(x, y), bool_decide (PyStr.rstrip_nul x = PyStr.rstrip_nul y))
                       <$> zip xs ys))).
  rewrite IH by (simpl in Hlen; lia).
  unfold QofNat. rewrite Nat2Z.inj_add, inject_Z_plus.
  case_bool_decide; reflexivity.
Qed.

Lemma padded_matches_le xs ys : padded_matches xs ys ≤ length xs.
Proof.
  unfold padded_matches. etransitivity; [apply exact_matches_le|].
  by rewrite length_fmap.
Qed.

(** ** The text metrics *)

Section EvaluationProperties.
Context {S Input Output : Type} {env : Imports Output}.
Implicit Types (self : EvaluationResult S Input Output).
Implicit Types (predictions labels : list string) (log : list string).

Lemma calculate_f1_run self output_key opts log predictions labels :
  get_answers_from_output (outputs self) output_key (runnable_type self) = Ok predictions →
  get_answers_from_output (expected_outputs self) output_key (runnable_type self) = Ok labels →
  length predictions = length labels →
  predictions ≠ [] →
  _calculate_f1 self output_key opts log =
    (log ++ ["get_answers_from_output"; "get_answers_from_output";
             "preprocess_text"; "preprocess_text"],
     Ok {[ "f1" := np_mean
             ((λ '(label_toks, pred_toks), _compute_f1_single label_toks pred_toks)
                <$> zip (PyStr.split <$> preprocess_text labels opts)
                        (PyStr.split <$> preprocess_text predictions opts)) ]}).
Proof.
  intros Hp Hl Hlen Hne.
  unfold _calculate_f1, bind, call, ret. rewrite Hp, Hl, <- Hlen, Nat.eqb_refl.
  destruct predictions as [|p ps]; [done|]. simpl.
  rewrite <- !app_assoc. reflexivity.
Qed.

Lemma f1_scores_lookup (tokenized_labels tokenized_predictions : list (list string)) i :
  ((λ '(label_toks, pred_toks), _compute_f1_single label_toks pred_toks)
     <$> zip tokenized_labels tokenized_predictions) !! i
  = match tokenized_labels !! i, tokenized_predictions !! i with
    | Some label_toks, Some pred_toks => Some (_compute_f1_single label_toks pred_toks)
    | _, _ => None
    end.
Proof.
  rewrite list_lookup_fmap, lookup_zip_with.
  destruct (tokenized_labels !! i), (tokenized_predictions !! i); reflexivity.
Qed.

(** C1: on a non-empty set of samples [_calculate_f1] returns, under
    ["f1"], the arithmetic mean (sum over count) of one score per sample,
    and the score of sample [i] is the F1 of the specification on the
    whitespace tokens of the normalized prediction and label: 1 or 0 when
    a token list is empty (1 only when both are), 0 when the multiset
    intersection is empty, else [2*precision*recall/(precision+recall)]. *)
Theorem calculate_f1_per_sample_mean self output_key opts log predictions labels :
  get_answers_from_output (outputs self) output_key (runnable_type self) = Ok predictions →
  get_answers_from_output (expected_outputs self) output_key (runnable_type self) = Ok labels →
  length predictions = length labels →
  predictions ≠ [] →
  ∃ log' (scores : list Q),
    _calculate_f1 self output_key opts log
      = (log', Ok {[ "f1" := MFloat (Qsum scores / QofNat (length scores)) ]})
    ∧ length scores = length predictions
    ∧ ∀ i pred label,
        preprocess_text predictions opts !! i = Some pred →
        preprocess_text labels opts !! i = Some label →
        ∃ s, scores !! i = Some s
             ∧ (s == f1_spec (PyStr.split pred) (PyStr.split label))%Q.
Proof.
  intros Hp Hl Hlen Hne.
  eexists _, _. split; [|split].
  - rewrite (calculate_f1_run _ _ _ _ _ _ Hp Hl Hlen Hne).
    rewrite np_mean_nonempty; [reflexivity|].
    destruct predictions, labels; done.
  - rewrite length_fmap, length_zip, !length_fmap.
    unfold preprocess_text. rewrite !length_fmap. lia.
  - intros i pred label Hpi Hli.
    rewrite f1_scores_lookup, !list_lookup_fmap, Hpi, Hli. simpl.
    eexists. split; [reflexivity|]. apply compute_f1_single_spec.
Qed.

(** C10: the single-sample F1 lies in [0,1] for all token lists, and so
    does the mean that [_calculate_f1] returns on a non-empty set of
    samples. *)
Theorem f1_in_unit_interval :
  (∀ label_toks pred_toks : list string,
     (0 <= _compute_f1_single label_toks pred_toks <= 1)%Q)
  ∧ (∀ self output_key opts log predictions labels,
       get_answers_from_output (outputs self) output_key (runnable_type self)
         = Ok predictions →
       get_answers_from_output (expected_outputs self) output_key (runnable_type self)
         = Ok labels →
       length predictions = length labels →
       predictions ≠ [] →
       ∃ log' f1,
         _calculate_f1 self output_key opts log = (log', Ok {[ "f1" := MFloat f1 ]})
         ∧ (0 <= f1 <= 1)%Q).
Proof.
  split; [apply compute_f1_single_unit|].
  intros self output_key opts log predictions labels Hp Hl Hlen Hne.
  rewrite (calculate_f1_run _ _ _ _ _ _ Hp Hl Hlen Hne).
  eexists _, _. split.
  - rewrite np_mean_nonempty; [reflexivity|].
    destruct predictions, labels; done.
  - apply mean_unit; [destruct predictions, labels; done|].
    apply Forall_fmap, Forall_forall. intros [l p] _. apply compute_f1_single_unit.
Qed.

Lemma calculate_em_run self output_key opts log predictions labels :
  get_answers_from_output (outputs self) output_key (runnable_type self) = Ok predictions →
  get_answers_from_output (expected_outputs self) output_key (runnable_type self) = Ok labels →
  length predictions = length labels →
  predictions ≠ [] →
  _calculate_em self output_key opts log =
    (log ++ ["get_answers_from_output"; "get_answers_from_output";
             "preprocess_text"; "preprocess_text"],
     Ok {[ "exact_match" := np_mean
             ((λ b : bool, if b then 1%Q else 0%Q)
                <$> np_array_eq (preprocess_text predictions opts)
                                (preprocess_text labels opts)) ]}).
Proof.
  intros Hp Hl Hlen Hne.
  unfold _calculate_em, bind, call, ret. rewrite Hp, Hl, <- Hlen, Nat.eqb_refl.
  destruct predictions as [|p ps]; [done|]. simpl.
  rewrite <- !app_assoc. reflexivity.
Qed.

(** X20: on equal-length, non-empty predictions and labels the EM metric
    returns a score in [0,1] that is the number of indices at which the
    normalized prediction and the normalized label are the same up to
    trailing NUL characters, over the number of samples. *)
Theorem calculate_em_padded_fraction self output_key opts log predictions labels :
  get_answers_from_output (outputs self) output_key (runnable_type self) = Ok predictions →
  get_answers_from_output (expected_outputs self) output_key (runnable_type self) = Ok labels →
  length predictions = length labels →
  predictions ≠ [] →
  ∃ log' em,
    _calculate_em self output_key opts log = (log', Ok {[ "exact_match" := MFloat em ]})
    ∧ (em == QofNat (padded_matches (preprocess_text predictions opts)
                                     (preprocess_text labels opts))
             / QofNat (length predictions))%Q
    ∧ (0 <= em <= 1)%Q.
Proof.
  intros Hp Hl Hlen Hne.
  rewrite (calculate_em_run _ _ _ _ _ _ Hp Hl Hlen Hne).
  set (xs := preprocess_text predictions opts).
  set (ys := preprocess_text labels opts).
  assert (length xs = length predictions) as Hxs
    by (unfold xs, preprocess_text; by rewrite length_fmap).
  assert (length ys = length xs) as Hys
    by (unfold xs, ys, preprocess_text; rewrite !length_fmap; lia).
  assert (length (np_array_eq xs ys) = length predictions) as Hn.
  { unfold np_array_eq. rewrite length_fmap, length_zip. lia. }
  assert (0 < length predictions) as Hpos by (destruct predictions; [done | simpl; lia]).
  rewrite np_mean_nonempty.
  2:{ intros E. apply (f_equal length) in E. rewrite length_fmap, Hn in E.
      simpl in E. lia. }
  eexists _, _. split; [reflexivity|].
  rewrite length_fmap, Hn, Qsum_np_array_eq by done.
  split; [reflexivity|].
  pose proof (QofNat_pos _ Hpos).
  pose proof (QofNat_le _ _ (padded_matches_le xs ys)) as Hle. rewrite Hxs in Hle.
  assert (0 <= QofNat (padded_matches xs ys))%Q
    by (unfold QofNat; change 0%Q with (inject_Z 0); rewrite <- Zle_Qle; lia).
  split.
  - apply Qle_shift_div_l; [done|]. lra.
  - apply Qle_shift_div_r; [done|]. lra.
Qed.

(** C3: when the two extracted answer lists differ in length, EM, F1 and
    SAS each raise the length-mismatch [ValueError]; by then only the
    extraction (for SAS: and the import guard before it) has been
    called, neither the normalizer nor any model. *)
Theorem length_mismatch_raises self output_key opts model batch_size device token
    log predictions labels :
  get_answers_from_output (outputs self) output_key (runnable_type self) = Ok predictions →
  get_answers_from_output (expected_outputs self) output_key (runnable_type self) = Ok labels →
  length predictions ≠ length labels →
  _calculate_em self output_key opts log
    = (log ++ ["get_answers_from_output"; "get_answers_from_output"],
       Err (ValueError "The number of predictions and labels must be the same."))
  ∧ _calculate_f1 self output_key opts log
    = (log ++ ["get_answers_from_output"; "get_answers_from_output"],
       Err (ValueError "The number of predictions and labels must be the same."))
  ∧ (metrics_import_check = Ok () →
     _calculate_sas self output_key opts model batch_size device token log
     = (log ++ ["metrics_import.check";
                "get_answers_from_output"; "get_answers_from_output"],
        Err (ValueError "The number of predictions and labels must be the same."))).
Proof.
  intros Hp Hl Hlen. apply Nat.eqb_neq in Hlen.
  split; [|split].
  - unfold _calculate_em, bind, call, raise. rewrite Hp, Hl, Hlen. simpl.
    by rewrite <- !app_assoc.
  - unfold _calculate_f1, bind, call, raise. rewrite Hp, Hl, Hlen. simpl.
    by rewrite <- !app_assoc.
  - intros Hc. unfold _calculate_sas, bind, call, raise. rewrite Hc, Hp, Hl, Hlen. simpl.
    by rewrite <- !app_assoc.
Qed.

(** C4: when both extracted answer lists are empty, whatever the number
    of samples held by the result object, EM and F1 return the score 0.0
    and SAS returns the score 0.0 with the one-element score list
    [0.0]; none of them raises. *)
Theorem zero_samples self output_key opts model batch_size device token log :
  get_answers_from_output (outputs self) output_key (runnable_type self) = Ok [] →
  get_answers_from_output (expected_outputs self) output_key (runnable_type self) = Ok [] →
  _calculate_em self output_key opts log
    = (log ++ ["get_answers_from_output"; "get_answers_from_output"],
       Ok {[ "exact_match" := MFloat 0 ]})
  ∧ _calculate_f1 self output_key opts log
    = (log ++ ["get_answers_from_output"; "get_answers_from_output"],
       Ok {[ "f1" := MFloat 0 ]})
  ∧ (metrics_import_check = Ok () →
     _calculate_sas self output_key opts model batch_size device token log
     = (log ++ ["metrics_import.check";
                "get_answers_from_output"; "get_answers_from_output"],
        Ok {[ "sas" := MFloat 0; "scores" := MFloats [0%Q] ]})).
Proof.
  intros Hp Hl. split; [|split].
  - unfold _calculate_em, bind, call, ret. rewrite Hp, Hl. simpl.
    by rewrite <- !app_assoc.
  - unfold _calculate_f1, bind, call, ret. rewrite Hp, Hl. simpl.
    by rewrite <- !app_assoc.
  - intros Hc. unfold _calculate_sas, bind, call, ret. rewrite Hc, Hp, Hl. simpl.
    by rewrite <- !app_assoc.
Qed.

(** ** Dispatch *)

Lemma bind_kwargs_none (kwargs : gmap string PyVal) :
  bind_kwargs [] [] kwargs
  = if bool_decide (kwargs = ∅) then Ok ()
    else Err (TypeError "got an unexpected keyword argument").
Proof.
  unfold bind_kwargs. case_bool_decide as Hk.
  - rewrite bool_decide_true by constructor.
    destruct (map_to_list kwargs) as [|[k v] l] eqn:E.
    + apply map_to_list_empty_iff in E. by rewrite bool_decide_true.
    + simpl in Hk. apply Forall_cons in Hk as [Hk _]. by apply elem_of_nil in Hk.
  - rewrite bool_decide_false; [done|]. intros ->. apply Hk.
    rewrite map_to_list_empty. constructor.
Qed.

(** C6 (as amended): [calculate_metrics] with RECALL, MRR or MAP and no
    keyword argument returns the result whose single value, under the
    metric's key, is [None], and calls nothing; it neither raises nor
    returns a number. With any keyword argument the call raises
    [TypeError]: the three methods take no parameter. *)
Theorem calculate_metrics_stub self (m : Metric) key (kwargs : gmap string PyVal) log :
  stub_key m = Some key →
  (kwargs = ∅ →
     calculate_metrics self (Builtin m) kwargs log = (log, Ok {[ key := MNone ]}))
  ∧ (kwargs ≠ ∅ →
     calculate_metrics self (Builtin m) kwargs log
     = (log, Err (TypeError "got an unexpected keyword argument"))).
Proof.
  intros Hm. split; intros Hk;
    destruct m; simplify_eq/=; unfold bind; rewrite bind_kwargs_none;
    (rewrite bool_decide_true by done) || (rewrite bool_decide_false by done);
    reflexivity.
Qed.

(** ** SAS, cross-encoder path *)

Lemma Qgt1_true (x : Q) : Qgt1 x = true ↔ (1 < x)%Q.
Proof.
  unfold Qgt1. rewrite negb_true_iff, <- not_true_iff_false, Qle_bool_iff.
  split; [apply Qnot_le_lt | apply Qlt_not_le].
Qed.

Lemma existsb_Qgt1_true (raw : list Q) :
  existsb Qgt1 raw = true ↔ ∃ x, x ∈ raw ∧ (1 < x)%Q.
Proof.
  rewrite existsb_exists. split; intros (x & Hx & H1); exists x.
  - split; [by apply list_elem_of_In | by apply Qgt1_true].
  - split; [by apply list_elem_of_In | by apply Qgt1_true].
Qed.

(** C7: on the cross-encoder path of SAS, with [raw] the scores the
    classification model returns for the pairs, the per-sample scores of
    the result are [expit] of every raw score when some raw score
    exceeds 1, and the raw scores themselves when none does. *)
Theorem sas_cross_encoder_normalization self output_key opts model batch_size device token
    log predictions labels config archs dev similarity_model (raw : list Q) :
  metrics_import_check = Ok () →
  get_answers_from_output (outputs self) output_key (runnable_type self) = Ok predictions →
  get_answers_from_output (expected_outputs self) output_key (runnable_type self) = Ok labels →
  length predictions = length labels →
  predictions ≠ [] →
  AutoConfig_from_pretrained model token = Ok config →
  architectures config = Some archs →
  (∃ arch, arch ∈ archs ∧ PyStr.endswith arch "ForSequenceClassification" = true) →
  resolve_device device = Ok dev →
  CrossEncoder_new model (to_torch_str dev) token = Ok similarity_model →
  predict similarity_model
    (zip (preprocess_text predictions opts) (preprocess_text labels opts)) batch_size
    = Ok raw →
  ∃ log' scores,
    _calculate_sas self output_key opts model batch_size device token log
      = (log', Ok {[ "sas" := np_mean scores; "scores" := MFloats scores ]})
    ∧ ((∃ x, x ∈ raw ∧ (1 < x)%Q) → scores = expit <$> raw)
    ∧ ((∀ x, x ∈ raw → (x <= 1)%Q) → scores = raw).
Proof.
  intros Hc Hp Hl Hlen Hne Hcfg Harch (arch & Hin & Hsuf) Hdev Hce Hraw.
  destruct archs as [|a archs']; [by apply elem_of_nil in Hin|].
  assert (existsb (λ arch, PyStr.endswith arch "ForSequenceClassification")
            (a :: archs') = true) as Hused.
  { apply existsb_exists. exists arch. split; [by apply list_elem_of_In | done]. }
  exists (log ++ ["metrics_import.check"; "get_answers_from_output";
                  "get_answers_from_output"; "preprocess_text"; "preprocess_text";
                  "AutoConfig.from_pretrained"; "ComponentDevice.resolve_device";
                  "CrossEncoder"; "predict"]),
    (if existsb Qgt1 raw then expit <$> raw else raw).
  split; [|split].
  - unfold _calculate_sas, bind, call, ret.
    rewrite Hc, Hp, Hl, <- Hlen, Nat.eqb_refl.
    destruct predictions as [|p ps]; [done|]. cbn [negb length Nat.eqb andb].
    rewrite Hcfg, Harch, Hused, Hdev, Hce, Hraw.
    rewrite <- !app_assoc. reflexivity.
  - intros Hex. apply existsb_Qgt1_true in Hex. by rewrite Hex.
  - intros Hall. destruct (existsb Qgt1 raw) eqn:E; [|done].
    apply existsb_Qgt1_true in E as (x & Hx & H1).
    specialize (Hall x Hx). lra.
Qed.

(** ** [eval] *)

Lemma eval_loop (r : Runnable S Input Output) inputs acc w :
  for_each inputs
    (λ outputs input_, let* output := invoke r input_ in ret (outputs ++ [output]))
    acc w
  = ({| rstate := (run_in_order r (rstate w) inputs).1;
        invoked := invoked w ++ take (invocations r (rstate w) inputs) inputs |},
     match (run_in_order r (rstate w) inputs).2 with
     | Ok outs => Ok (acc ++ outs)
     | Err e => Err e
     end).
Proof.
  revert acc w. induction inputs as [|i rest IH]; intros acc [s inv].
  - simpl. unfold ret. by rewrite !app_nil_r.
  - cbn [for_each]. unfold bind at 1. unfold bind at 1. unfold invoke at 1.
    cbn [rstate invoked run_in_order invocations].
    destruct (run r s i) as [s' [o|e]] eqn:Hr.
    + unfold ret at 1. rewrite IH. cbn [rstate invoked].
      destruct (run_in_order r s' rest) as [s'' [outs|e]]; cbn [fst snd take];
        rewrite <- ?app_assoc; reflexivity.
    + reflexivity.
Qed.

Lemma run_in_order_length (r : Runnable S Input Output) s inputs s' outs :
  run_in_order r s inputs = (s', Ok outs) →
  length outs = length inputs ∧ invocations r s inputs = length inputs.
Proof.
  revert s s' outs. induction inputs as [|i rest IH]; intros s s' outs; simpl.
  - intros [= <- <-]. done.
  - destruct (run r s i) as [s1 [o|e]]; [|done].
    destruct (run_in_order r s1 rest) as [s2 [os|e]] eqn:Hrest; [|done].
    intros [= <- <-]. destruct (IH _ _ _ Hrest) as [H1 H2].
    simpl. rewrite H1, H2. done.
Qed.

Lemma invocations_bound (r : Runnable S Input Output) s inputs :
  invocations r s inputs ≤ length inputs.
Proof.
  revert s. induction inputs as [|i rest IH]; intros s; simpl; [lia|].
  destruct (run r s i) as [s1 [o|e]]; [|lia]. specialize (IH s1). lia.
Qed.

(** C5: [eval] raises the shape-mismatch [ValueError] when the two
    lengths differ, with the runnable's state untouched and no input
    invoked. Otherwise it invokes the runnable on the inputs in order,
    each invocation from the state left by the one before; when all of
    them return, [eval] returns the result object holding the outputs in
    input order, with [len(inputs) == len(outputs) == len(expected_outputs)];
    when one raises, [eval] raises the same, with only the inputs up to
    that one invoked. *)
Theorem eval_checks_then_runs_in_order (r : Runnable S Input Output)
    (ins : list Input) (expected : list Output) (w : EvalWorld S Input) :
  (length ins ≠ length expected →
     eval r ins expected w
     = (w, Err (ValueError
          ("The number of inputs (" +:+ pretty (length ins)
           +:+ ") does not match the number of expected outputs ("
           +:+ pretty (length expected)
           +:+ "). Please ensure that each input has a corresponding expected output."))))
  ∧ (length ins = length expected →
     ∀ s' outs, run_in_order r (rstate w) ins = (s', Ok outs) →
       let er := __init__ r ins outs expected in
       eval r ins expected w
         = ({| rstate := s'; invoked := invoked w ++ ins |}, Ok er)
       ∧ length (inputs er) = length (outputs er)
       ∧ length (outputs er) = length (expected_outputs er))
  ∧ (length ins = length expected →
     ∀ s' e, run_in_order r (rstate w) ins = (s', Err e) →
       ∃ n, n ≤ length ins
            ∧ eval r ins expected w
              = ({| rstate := s'; invoked := invoked w ++ take n ins |}, Err e)).
Proof.
  split; [|split].
  - intros Hne. unfold eval. apply Nat.eqb_neq in Hne. rewrite Hne. reflexivity.
  - intros Hlen s' outs Hrun. cbn zeta.
    destruct (run_in_order_length _ _ _ _ _ Hrun) as [Ho Hn].
    split; [|simpl; lia].
    unfold eval. rewrite Hlen, Nat.eqb_refl. cbn [negb].
    unfold bind at 1. rewrite eval_loop, Hrun, Hn, firstn_all. reflexivity.
  - intros Hlen s' e Hrun.
    exists (invocations r (rstate w) ins). split; [apply invocations_bound|].
    unfold eval. rewrite Hlen, Nat.eqb_refl. cbn [negb].
    unfold bind at 1. rewrite eval_loop, Hrun. reflexivity.
Qed.

End EvaluationProperties.

(** ** The docx converter *)

Section ConverterProperties.
Context {env : Docx.Imports}.
Import Docx.

Lemma normalize_metadata_length meta n meta_list :
  normalize_metadata meta n = Ok meta_list → length meta_list = n.
Proof.
  destruct meta as [|d|l]; simpl.
  - intros [= <-]. apply length_replicate.
  - intros [= <-]. apply length_replicate.
  - case_bool_decide; [|done]. intros [= <-]. done.
Qed.

(** The loop of [run], as a whole: the warnings and the documents it adds. *)
Lemma run_loop (pairs : list (Source * gmap string PyVal)) documents log :
  for_each pairs
    (λ documents '(source, metadata),
       match get_bytestream_from_source source with
       | Err e =>
           let* _ := logger_warning
               "Could not read {source}. Skipping it. Error: {error}" source e in
           ret documents
       | Ok bytestream =>
           match read_docx bytestream with
           | Err e =>
               let* _ := logger_warning
                   "Could not read {source} and convert it to a Docx Document, skipping. Error: {error}"
                   source e in
               ret documents
           | Ok (file, text) =>
               let docx_meta := _get_docx_metadata file in
               let merged_metadata :=
                 metadata ∪ (docx_meta ∪ ByteStream.meta bytestream) in
               let document :=
                 {| Document.content := text; Document.meta := merged_metadata |} in
               ret (documents ++ [document])
           end
       end)
    documents log
  = (log ++ omap warning_of pairs.*1, Ok (documents ++ omap document_of pairs)).
Proof.
  revert documents log. induction pairs as [|[source metadata] pairs IH];
    intros documents log.
  - simpl. unfold ret. by rewrite !app_nil_r.
  - cbn [for_each fmap list_fmap omap list_omap fst snd]. unfold bind at 1.
    unfold document_of, warning_of, parsed, read_docx. cbn [fst snd].
    destruct (get_bytestream_from_source source) as [bs|e].
    + destruct (docx_Document (ByteStream.data bs)) as [file|e].
      * unfold ret at 1. rewrite IH.
        unfold document_of, warning_of, parsed. rewrite <- app_assoc. reflexivity.
      * unfold bind at 1, logger_warning at 1, ret at 1. rewrite IH.
        unfold document_of, warning_of, parsed. rewrite <- app_assoc. reflexivity.
    + unfold bind at 1, logger_warning at 1, ret at 1. rewrite IH.
      unfold document_of, warning_of, parsed. rewrite <- app_assoc. reflexivity.
Qed.

Lemma run_result sources meta meta_list log :
  normalize_metadata meta (length sources) = Ok meta_list →
  run sources meta log
  = (log ++ omap warning_of sources,
     Ok {[ "documents" := omap document_of (zip sources meta_list) ]}).
Proof.
  intros Hn. pose proof (normalize_metadata_length _ _ _ Hn) as Hlen.
  unfold run. unfold bind at 1. rewrite Hn. unfold bind at 1.
  rewrite run_loop, fst_zip by lia. reflexivity.
Qed.

Lemma warning_of_source source w : warning_of source = Some w → w_source w = source.
Proof.
  unfold warning_of.
  destruct (get_bytestream_from_source source) as [bs|e];
    [destruct (docx_Document (ByteStream.data bs))|]; intros [= <-]; done.
Qed.

Lemma warning_of_parsed source : is_Some (warning_of source) ↔ ¬ is_Some (parsed source).
Proof.
  unfold warning_of, parsed.
  destruct (get_bytestream_from_source source) as [bs|e];
    [destruct (docx_Document (ByteStream.data bs))|];
    rewrite ?is_Some_alt; naive_solver.
Qed.

Lemma warnings_sources (sources : list Source) :
  w_source <$> omap warning_of sources
  = filter (λ source, ¬ is_Some (parsed source)) sources.
Proof.
  induction sources as [|source sources IH]; [done|].
  cbn [omap list_omap]. rewrite filter_cons.
  destruct (warning_of source) as [w|] eqn:Hw.
  - rewrite decide_True by (apply warning_of_parsed; by rewrite Hw).
    rewrite fmap_cons, IH. f_equal. by apply warning_of_source.
  - rewrite decide_False; [done|].
    rewrite <- warning_of_parsed, Hw. by intros [? ?].
Qed.

Lemma documents_sources (sources : list Source) (meta_list : list (gmap string PyVal)) :
  length meta_list = length sources →
  Forall2 (λ document source,
             ∃ bytestream file,
               parsed source = Some (bytestream, file)
               ∧ Document.content document
                 = PyStr.join PyStr.newline (paragraphs file))
    (omap document_of (zip sources meta_list))
    (filter (λ source, is_Some (parsed source)) sources).
Proof.
  revert meta_list. induction sources as [|source sources IH]; intros meta_list Hlen.
  { destruct meta_list; [constructor | done]. }
  destruct meta_list as [|metadata meta_list]; [done|].
  cbn [zip_with omap list_omap]. rewrite filter_cons.
  unfold document_of at 1. cbn [fst snd].
  destruct (parsed source) as [[bs file]|] eqn:Hp.
  - rewrite decide_True by done. constructor; [|apply IH; simpl in Hlen; lia].
    exists bs, file. done.
  - rewrite decide_False by (by intros [? ?]). apply IH. simpl in Hlen; lia.
Qed.

(** C8: whenever the metadata fits the sources, [run] returns and does not
    raise: the documents are, in order, one per source that is read and
    parsed, each with the joined paragraph text of its source, and the
    logger has received, in order, one warning per other source, naming
    that source. *)
Theorem run_skips_bad_sources sources meta meta_list log :
  normalize_metadata meta (length sources) = Ok meta_list →
  ∃ documents warnings,
    run sources meta log = (log ++ warnings, Ok {[ "documents" := documents ]})
    ∧ Forall2 (λ document source,
                 ∃ bytestream file,
                   parsed source = Some (bytestream, file)
                   ∧ Document.content document
                     = PyStr.join PyStr.newline (paragraphs file))
        documents (filter (λ source, is_Some (parsed source)) sources)
    ∧ length documents = length (filter (λ source, is_Some (parsed source)) sources)
    ∧ w_source <$> warnings = filter (λ source, ¬ is_Some (parsed source)) sources.
Proof.
  intros Hn. pose proof (normalize_metadata_length _ _ _ Hn) as Hlen.
  eexists _, _. split; [by apply run_result|].
  pose proof (documents_sources sources meta_list Hlen) as HF.
  split; [done|]. split; [by eapply Forall2_length|]. apply warnings_sources.
Qed.

(** *** The metadata of a document *)

Lemma present_true value : present value = true ↔ value ≠ VNone ∧ value ≠ VStr "".
Proof.
  destruct value as [| | |[|??]| |]; simpl; split;
    try done; try (intros [? ?]; done); intros; split; done.
Qed.

Lemma docx_key_inj (p q : string) : "docx_" +:+ p = "docx_" +:+ q → p = q.
Proof. intros H. cbn in H. by simplify_eq. Qed.

(** A property that adds no entry: the fold goes on with the same map. *)
Local Ltac skipped_prop Hp :=
  split;
  [ intros [(q & Hq & Hk & Hc & Hpr)|[Ha Hno]];
    [ left; exists q; rewrite elem_of_cons; auto
    | right; split; [done|];
      intros q v' [->|Hq]%elem_of_cons Hk Hc; [congruence | eauto] ]
  | intros [(q & [->|Hq]%elem_of_cons & Hk & Hc & Hpr)|[Ha Hno]];
    [ congruence
    | left; exists q; auto
    | right; split; [done|]; intros q v' Hq; apply Hno; rewrite elem_of_cons; auto ] ].

Lemma get_docx_metadata_fold (core : gmap string PyVal) (l : list string)
    (acc : gmap string PyVal) k v :
  foldl (λ docx_meta prop,
           match core !! prop with
           | Some value =>
               if present value then <["docx_" +:+ prop := value]> docx_meta
               else docx_meta
           | None => docx_meta
           end) acc l !! k = Some v
  ↔ (∃ prop, prop ∈ l ∧ k = "docx_" +:+ prop
             ∧ core !! prop = Some v ∧ present v = true)
    ∨ (acc !! k = Some v
       ∧ ∀ prop v', prop ∈ l → k = "docx_" +:+ prop →
                    core !! prop = Some v' → present v' = false).
Proof.
  revert acc. induction l as [|p l IH]; intros acc.
  - simpl. split; [intros H; right; split; [done|] | intros [(?&H&_)|[H _]]; [|done]].
    + intros ?? H'. by apply elem_of_nil in H'.
    + by apply elem_of_nil in H.
  - cbn [foldl]. rewrite IH. clear IH.
    destruct (core !! p) as [vp|] eqn:Hp; [destruct (present vp) eqn:Hv|].
    + destruct (decide (k = "docx_" +:+ p)) as [->|Hne].
      * rewrite lookup_insert_eq. split.
        -- intros [(q & Hq & Hk & Hc & Hpr)|[[= <-] Hno]].
           ++ left. exists q. rewrite elem_of_cons. auto.
           ++ left. exists p. rewrite elem_of_cons. auto.
        -- intros [(q & Hq & Hk & Hc & Hpr)|[Ha Hno]].
           ++ apply docx_key_inj in Hk as <-.
              destruct (decide (p ∈ l)) as [E|E]; [left; exists p; auto|].
              right. split; [congruence|].
              intros q v' Hq' Hk' Hc'. apply docx_key_inj in Hk' as <-. done.
           ++ exfalso. specialize (Hno p vp). rewrite elem_of_cons in Hno.
              rewrite Hno in Hv; auto. done.
      * rewrite lookup_insert_ne by done. split.
        -- intros [(q & Hq & Hk & Hc & Hpr)|[Ha Hno]].
           ++ left. exists q. rewrite elem_of_cons. auto.
           ++ right. split; [done|]. intros q v' [->|Hq]%elem_of_cons Hk Hc;
                [done | eauto].
        -- intros [(q & [->|Hq]%elem_of_cons & Hk & Hc & Hpr)|[Ha Hno]].
           ++ done.
           ++ left. exists q. auto.
           ++ right. split; [done|]. intros q v' Hq. apply Hno.
              rewrite elem_of_cons. auto.
    + skipped_prop Hp.
    + skipped_prop Hp.
Qed.

Lemma get_docx_metadata_lookup (file : DocxDocument) k v :
  _get_docx_metadata file !! k = Some v
  ↔ ∃ prop, prop ∈ props ∧ k = "docx_" +:+ prop
            ∧ core_properties file !! prop = Some v
            ∧ v ≠ VNone ∧ v ≠ VStr "".
Proof.
  unfold _get_docx_metadata. rewrite get_docx_metadata_fold. split.
  - intros [(prop & ? & ? & ? & Hpr)|[H _]]; [|by rewrite lookup_empty in H].
    apply present_true in Hpr. eauto 10.
  - intros (prop & ? & ? & ? & Hpr). left. exists prop.
    rewrite present_true. auto.
Qed.

Lemma omap_lookup_position {A B} (f : A → option B) (l : list A) i x y :
  l !! i = Some x → f x = Some y →
  omap f l !! length (omap f (take i l)) = Some y.
Proof.
  revert i. induction l as [|a l IH]; intros [|i] Hi Hx; simplify_eq/=.
  - by rewrite Hx.
  - destruct (f a); simpl; eauto.
Qed.

Lemma merged_lookup (metadata docx_meta bs_meta : gmap string PyVal) k :
  (metadata ∪ (docx_meta ∪ bs_meta)) !! k
  = match metadata !! k with
    | Some v => Some v
    | None =>
        match docx_meta !! k with
        | Some v => Some v
        | None => bs_meta !! k
        end
    end.
Proof.
  rewrite !lookup_union.
  destruct (metadata !! k), (docx_meta !! k), (bs_meta !! k); reflexivity.
Qed.

(** C9: the Document of a source that is read and parsed, found in the
    output after the documents of the parsed sources before it, has as
    [meta] the merge of the metadata of its ByteStream, then the
    extracted docx properties, then the caller's metadata for it: under
    each key the caller's value if there is one, else the docx
    property, else the ByteStream's value. The docx properties are the
    attributes of [core_properties] named in the list of fifteen whose
    value is neither [None] nor the empty string, under the name
    prefixed with [docx_]. *)
Theorem document_meta_merge sources meta meta_list log i source metadata bytestream file :
  normalize_metadata meta (length sources) = Ok meta_list →
  sources !! i = Some source →
  meta_list !! i = Some metadata →
  get_bytestream_from_source source = Ok bytestream →
  docx_Document (ByteStream.data bytestream) = Ok file →
  ∃ log' documents document,
    run sources meta log = (log', Ok {[ "documents" := documents ]})
    ∧ documents !! length (filter (λ s, is_Some (parsed s)) (take i sources))
      = Some document
    ∧ (∀ k, Document.meta document !! k
            = match metadata !! k with
              | Some v => Some v
              | None =>
                  match _get_docx_metadata file !! k with
                  | Some v => Some v
                  | None => ByteStream.meta bytestream !! k
                  end
              end)
    ∧ (∀ k v, _get_docx_metadata file !! k = Some v
              ↔ ∃ prop, prop ∈ props ∧ k = "docx_" +:+ prop
                        ∧ core_properties file !! prop = Some v
                        ∧ v ≠ VNone ∧ v ≠ VStr "")
    ∧ length props = 15.
Proof.
  intros Hn Hs Hm Hbs Hfile.
  pose proof (normalize_metadata_length _ _ _ Hn) as Hlen.
  set (document :=
    {| Document.content := PyStr.join PyStr.newline (paragraphs file);
       Document.meta :=
         metadata ∪ (_get_docx_metadata file ∪ ByteStream.meta bytestream) |}).
  assert (document_of (source, metadata) = Some document) as Hdoc.
  { unfold document_of, parsed. cbn [fst snd]. rewrite Hbs, Hfile. reflexivity. }
  eexists _, _, document. split; [by apply run_result|].
  split; [|split; [|split]].
  - assert (zip sources meta_list !! i = Some (source, metadata)) as Hz.
    { rewrite lookup_zip_with, Hs, Hm. reflexivity. }
    rewrite <- (omap_lookup_position document_of _ i _ _ Hz Hdoc).
    f_equal. rewrite zip_with_take. symmetry.
    eapply Forall2_length, documents_sources.
    rewrite !length_take. lia.
  - intros k. apply merged_lookup.
  - apply get_docx_metadata_lookup.
  - reflexivity.
Qed.

End ConverterProperties.

(** ** The theorems at work on the concrete environment *)

Section Instances.
Import Demo.
Local Existing Instance imports.
Local Existing Instance docx_imports.

(** Specification, section 8: predictions ["Paris"; "7"] against labels
    ["Paris"; "seven"] score EM 0.5 and F1 0.5. *)
Example em_scenario :
  _calculate_em result key opts []
  = (["get_answers_from_output"; "get_answers_from_output";
      "preprocess_text"; "preprocess_text"],
     Ok {[ "exact_match" := MFloat ((1 + (0 + 0)) / 2) ]}).
Proof. reflexivity. Qed.

Example f1_scenario :
  ∃ f1, (_calculate_f1 result key opts []).2 = Ok {[ "f1" := MFloat f1 ]}
        ∧ (f1 == 1 # 2)%Q.
Proof. eexists. split; [reflexivity|]. vm_compute. reflexivity. Qed.

Example rstrip_nul_example :
  PyStr.rstrip_nul ("a" +:+ Padding.nul +:+ "b" +:+ Padding.nul +:+ Padding.nul)
  = "a" +:+ Padding.nul +:+ "b".
Proof. reflexivity. Qed.

Example split_example :
  PyStr.split " the  cat sat " = ["the"; "cat"; "sat"].
Proof. reflexivity. Qed.

(** Specification, section 8: "the cat sat" against "the cat sat on the
    mat" has precision 1, recall 1/2 and F1 2/3. *)
Example f1_cat_scenario :
  (_compute_f1_single (PyStr.split "the cat sat on the mat") (PyStr.split "the cat sat")
   == 2 # 3)%Q.
Proof. vm_compute. reflexivity. Qed.

Lemma calculate_f1_per_sample_mean_witness :
  ∃ log' (scores : list Q),
    _calculate_f1 result key opts []
      = (log', Ok {[ "f1" := MFloat (Qsum scores / QofNat (length scores)) ]})
    ∧ length scores = length ["Paris"; "7"]
    ∧ ∀ i pred label,
        preprocess_text ["Paris"; "7"] opts !! i = Some pred →
        preprocess_text ["Paris"; "seven"] opts !! i = Some label →
        ∃ s, scores !! i = Some s
             ∧ (s == f1_spec (PyStr.split pred) (PyStr.split label))%Q.
Proof.
  apply (calculate_f1_per_sample_mean result key opts [] ["Paris"; "7"] ["Paris"; "seven"]).
  - reflexivity.
  - reflexivity.
  - reflexivity.
  - discriminate.
Defined.

Lemma f1_in_unit_interval_witness :
  ∃ log' f1,
    _calculate_f1 result key opts [] = (log', Ok {[ "f1" := MFloat f1 ]})
    ∧ (0 <= f1 <= 1)%Q.
Proof.
  apply (proj2 f1_in_unit_interval result key opts [] ["Paris"; "7"] ["Paris"; "seven"]).
  - reflexivity.
  - reflexivity.
  - reflexivity.
  - discriminate.
Defined.

(** C2: the code departs from the claim on a trailing NUL character. For
    the single prediction "a" followed by NUL and the label "a", with no
    normalization, the two strings are not exactly equal, so the fraction
    of exact matches is 0; [_calculate_em] returns the exact match score 1,
    because the comparison of the two [numpy] string arrays takes trailing
    NULs for padding. *)
Theorem calculate_em_trailing_nul :
  ∃ em,
    _calculate_em Padding.padded key opts []
      = (["get_answers_from_output"; "get_answers_from_output";
          "preprocess_text"; "preprocess_text"],
         Ok {[ "exact_match" := MFloat em ]})
    ∧ (em == 1)%Q
    ∧ preprocess_text ["a" +:+ Padding.nul] opts ≠ preprocess_text ["a"] opts
    ∧ (QofNat (exact_matches (preprocess_text ["a" +:+ Padding.nul] opts)
                             (preprocess_text ["a"] opts))
       / QofNat (length ["a" +:+ Padding.nul]) == 0)%Q.
Proof.
  exists (Qsum [1%Q] / QofNat 1)%Q. split; [vm_compute; reflexivity|].
  split; [by vm_compute|]. split; [discriminate | by vm_compute].
Qed.

Lemma calculate_em_padded_fraction_witness :
  ∃ log' em,
    _calculate_em result key opts [] = (log', Ok {[ "exact_match" := MFloat em ]})
    ∧ (em == QofNat (padded_matches (preprocess_text ["Paris"; "7"] opts)
                                     (preprocess_text ["Paris"; "seven"] opts))
             / QofNat (length ["Paris"; "7"]))%Q
    ∧ (0 <= em <= 1)%Q.
Proof.
  apply (calculate_em_padded_fraction result key opts [] ["Paris"; "7"] ["Paris"; "seven"]).
  - reflexivity.
  - reflexivity.
  - reflexivity.
  - discriminate.
Defined.

Lemma length_mismatch_raises_witness :
  _calculate_em mismatched key opts []
    = ([] ++ ["get_answers_from_output"; "get_answers_from_output"],
       Err (ValueError "The number of predictions and labels must be the same."))
  ∧ _calculate_f1 mismatched key opts []
    = ([] ++ ["get_answers_from_output"; "get_answers_from_output"],
       Err (ValueError "The number of predictions and labels must be the same."))
  ∧ _calculate_sas mismatched key opts (VStr "cross-encoder/stsb") (VInt 32) VNone VNone []
    = ([] ++ ["metrics_import.check";
              "get_answers_from_output"; "get_answers_from_output"],
       Err (ValueError "The number of predictions and labels must be the same.")).
Proof.
  assert (get_answers_from_output (outputs mismatched) key (runnable_type mismatched)
          = Ok ["Paris"; "7"]) as Hp by reflexivity.
  assert (get_answers_from_output (expected_outputs mismatched) key
            (runnable_type mismatched) = Ok ["Paris"]) as Hl by reflexivity.
  assert (length ["Paris"; "7"] ≠ length ["Paris"]) as Hlen by (simpl; lia).
  destruct (length_mismatch_raises mismatched key opts (VStr "cross-encoder/stsb")
              (VInt 32) VNone VNone [] ["Paris"; "7"] ["Paris"] Hp Hl Hlen)
    as (Hem & Hf1 & Hsas).
  split; [exact Hem|]. split; [exact Hf1|]. exact (Hsas eq_refl).
Defined.

Lemma zero_samples_witness :
  _calculate_em empty key opts []
    = ([] ++ ["get_answers_from_output"; "get_answers_from_output"],
       Ok {[ "exact_match" := MFloat 0 ]})
  ∧ _calculate_f1 empty key opts []
    = ([] ++ ["get_answers_from_output"; "get_answers_from_output"],
       Ok {[ "f1" := MFloat 0 ]})
  ∧ _calculate_sas empty key opts (VStr "cross-encoder/stsb") (VInt 32) VNone VNone []
    = ([] ++ ["metrics_import.check";
              "get_answers_from_output"; "get_answers_from_output"],
       Ok {[ "sas" := MFloat 0; "scores" := MFloats [0%Q] ]}).
Proof.
  assert (get_answers_from_output (outputs empty) key (runnable_type empty) = Ok [])
    as Hp by reflexivity.
  assert (get_answers_from_output (expected_outputs empty) key (runnable_type empty)
          = Ok []) as Hl by reflexivity.
  destruct (zero_samples empty key opts (VStr "cross-encoder/stsb") (VInt 32) VNone VNone []
              Hp Hl)
    as (Hem & Hf1 & Hsas).
  split; [exact Hem|]. split; [exact Hf1|]. exact (Hsas eq_refl).
Defined.

Lemma sas_cross_encoder_normalization_witness :
  ∃ log' scores,
    _calculate_sas result key opts (VStr "cross-encoder/stsb") (VInt 32) VNone VNone []
      = (log', Ok {[ "sas" := np_mean scores; "scores" := MFloats scores ]})
    ∧ scores = squash <$> [3; 1 # 2]%Q.
Proof.
  assert (∃ arch, arch ∈ ["BertForSequenceClassification"]
                  ∧ PyStr.endswith arch "ForSequenceClassification" = true) as Harch.
  { exists "BertForSequenceClassification". split; [left | reflexivity]. }
  assert (["Paris"; "7"] ≠ ([] : list string)) as Hne by discriminate.
  destruct (sas_cross_encoder_normalization (env := imports) result key opts
              (VStr "cross-encoder/stsb") (VInt 32) VNone VNone []
              ["Paris"; "7"] ["Paris"; "seven"]
              {| architectures := Some ["BertForSequenceClassification"] |}
              ["BertForSequenceClassification"]
              (() : @Device _ imports) (() : @CrossEncoder _ imports) [3; 1 # 2]%Q
              eq_refl eq_refl eq_refl eq_refl Hne eq_refl eq_refl Harch
              eq_refl eq_refl eq_refl)
    as (log' & scores & Hrun & Hany & _).
  exists log', scores. split; [exact Hrun|].
  apply Hany. exists 3%Q. split; [left | reflexivity].
Defined.

Example eval_scenario :
  eval echo ["capital?"; "days?"] ["Paris"; "seven"] fresh
  = ({| rstate := 2; invoked := ["capital?"; "days?"] |},
     Ok {| runnable := echo; inputs := ["capital?"; "days?"];
           outputs := ["capital?"; "days?"]; expected_outputs := ["Paris"; "seven"];
           runnable_type := component |}).
Proof. reflexivity. Qed.

Lemma eval_checks_then_runs_in_order_witness :
  eval echo ["capital?"; "days?"] ["Paris"] fresh
    = (fresh, Err (ValueError
         "The number of inputs (2) does not match the number of expected outputs (1). Please ensure that each input has a corresponding expected output."))
  ∧ (eval echo ["capital?"; "days?"] ["Paris"; "seven"] fresh
       = ({| rstate := 2; invoked := [] ++ ["capital?"; "days?"] |},
          Ok (__init__ echo ["capital?"; "days?"] ["capital?"; "days?"] ["Paris"; "seven"])))
  ∧ (∃ n, n ≤ 2
          ∧ eval echo ["boom"; "days?"] ["Paris"; "seven"] fresh
            = ({| rstate := 1; invoked := [] ++ take n ["boom"; "days?"] |},
               Err (Raised "RuntimeError" "boom"))).
Proof.
  split; [|split].
  - apply (proj1 (eval_checks_then_runs_in_order echo
                    ["capital?"; "days?"] ["Paris"] fresh)).
    simpl. lia.
  - apply (proj1 (proj2 (eval_checks_then_runs_in_order echo
                           ["capital?"; "days?"] ["Paris"; "seven"] fresh))
             eq_refl 2 ["capital?"; "days?"] eq_refl).
  - apply (proj2 (proj2 (eval_checks_then_runs_in_order echo
                           ["boom"; "days?"] ["Paris"; "seven"] fresh))
             eq_refl 1 (Raised "RuntimeError" "boom") eq_refl).
Defined.

Lemma calculate_metrics_stub_witness :
  calculate_metrics result (Builtin MRR) ∅ []
    = ([], Ok {[ "mean_reciprocal_rank" := MNone ]})
  ∧ calculate_metrics result (Builtin MAP) {[ "output_key" := key ]} []
    = ([], Err (TypeError "got an unexpected keyword argument")).
Proof.
  split.
  - apply (proj1 (calculate_metrics_stub result MRR "mean_reciprocal_rank" ∅ [] eq_refl)).
    reflexivity.
  - apply (proj2 (calculate_metrics_stub result MAP "mean_average_precision"
                    {[ "output_key" := key ]} [] eq_refl)).
    intros E. apply (f_equal (λ m : gmap string PyVal, m !! "output_key")) in E.
    discriminate E.
Defined.

(** C6 as stated fails: a call with the metric RECALL and a keyword
    argument (here [output_key="answers"]) raises [TypeError] and returns
    no result at all. *)
Lemma recall_with_keyword_argument_raises :
  calculate_metrics result (Builtin RECALL) {[ "output_key" := VStr "answers" ]} []
    = ([], Err (TypeError "got an unexpected keyword argument"))
  ∧ ¬ ∃ log' (res : gmap string MetricValue),
        calculate_metrics result (Builtin RECALL) {[ "output_key" := VStr "answers" ]} []
        = (log', Ok res).
Proof.
  assert (calculate_metrics result (Builtin RECALL)
            {[ "output_key" := VStr "answers" ]} []
          = ([], Err (TypeError "got an unexpected keyword argument"))) as E
    by (vm_compute; reflexivity).
  split; [exact E|]. intros (log' & res & H). rewrite E in H. discriminate H.
Qed.

Example docx_scenario :
  Docx.run sources (Docx.MetaDict overrides) []
  = ([ {| Docx.template := "Could not read {source}. Skipping it. Error: {error}";
          Docx.w_source := Docx.SrcStr "non_existing_file.docx";
          Docx.w_error := Raised "FileNotFoundError" "non_existing_file.docx" |};
       {| Docx.template :=
            "Could not read {source} and convert it to a Docx Document, skipping. Error: {error}";
          Docx.w_source := Docx.SrcStr "doc_1.txt";
          Docx.w_error := Raised "BadZipFile" "File is not a zip file" |} ],
     Ok {[ "documents" :=
             [ {| Document.content :=
                    "History" +:+ PyStr.newline +:+ "and standardization";
                  Document.meta :=
                    {[ "file_path" := VStr "sample_docx_1.docx";
                       "docx_author" := VStr "test_author";
                       "docx_revision" := VInt 2;
                       "docx_language" := VStr "it" ]} |} ] ]}).
Proof. vm_compute. reflexivity. Qed.

Lemma run_skips_bad_sources_witness :
  ∃ documents warnings,
    Docx.run sources Docx.MetaNone []
      = ([] ++ warnings, Ok {[ "documents" := documents ]})
    ∧ Forall2 (λ document source,
                 ∃ bytestream file,
                   Docx.parsed source = Some (bytestream, file)
                   ∧ Document.content document
                     = PyStr.join PyStr.newline (Docx.paragraphs file))
        documents (filter (λ source, is_Some (Docx.parsed source)) sources)
    ∧ length documents
      = length (filter (λ source, is_Some (Docx.parsed source)) sources)
    ∧ Docx.w_source <$> warnings
      = filter (λ source, ¬ is_Some (Docx.parsed source)) sources.
Proof.
  apply (run_skips_bad_sources sources Docx.MetaNone (replicate 3 ∅) []).
  reflexivity.
Defined.

Lemma document_meta_merge_witness :
  ∃ log' documents document,
    Docx.run sources (Docx.MetaDict overrides) []
      = (log', Ok {[ "documents" := documents ]})
    ∧ documents !! length (filter (λ s, is_Some (Docx.parsed s)) (take 1 sources))
      = Some document
    ∧ (∀ k, Document.meta document !! k
            = match overrides !! k with
              | Some v => Some v
              | None =>
                  match Docx._get_docx_metadata sample_docx !! k with
                  | Some v => Some v
                  | None => ByteStream.meta sample_bytestream !! k
                  end
              end)
    ∧ (∀ k v, Docx._get_docx_metadata sample_docx !! k = Some v
              ↔ ∃ prop, prop ∈ Docx.props ∧ k = "docx_" +:+ prop
                        ∧ Docx.core_properties sample_docx !! prop = Some v
                        ∧ v ≠ VNone ∧ v ≠ VStr "")
    ∧ length Docx.props = 15.
Proof.
  apply (document_meta_merge sources (Docx.MetaDict overrides) (replicate 3 overrides) []
           1 (Docx.SrcPath "sample_docx_1.docx") overrides sample_bytestream sample_docx).
  - reflexivity.
  - reflexivity.
  - reflexivity.
  - reflexivity.
  - reflexivity.
Defined.

End Instances.


(** * Further properties *)

(** ** The per-sample F1 as a function of two bags of tokens *)

Lemma num_same_comm label_toks pred_toks :
  num_same label_toks pred_toks = num_same pred_toks label_toks.
Proof.
  rewrite !num_same_common. unfold common_tokens.
  by rewrite (comm_L (∩) (list_to_set_disj pred_toks)).
Qed.

Lemma elements_list_to_set_disj (l : list string) :
  elements (list_to_set_disj l : gmultiset string) ≡ₚ l.
Proof.
  induction l as [|t l IH].
  - by rewrite list_to_set_disj_nil, gmultiset_elements_empty.
  - rewrite list_to_set_disj_cons, gmultiset_elements_disj_union,
      gmultiset_elements_singleton, IH. done.
Qed.

Lemma list_to_set_disj_inj_perm (l k : list string) :
  (list_to_set_disj l : gmultiset string) = list_to_set_disj k → l ≡ₚ k.
Proof.
  intros E. rewrite <- (elements_list_to_set_disj l), <- (elements_list_to_set_disj k).
  by rewrite E.
Qed.

Lemma gmultiset_subseteq_same_size (X Y : gmultiset string) :
  X ⊆ Y → size X = size Y → X = Y.
Proof.
  intros Hsub Hsize. rewrite (gmultiset_disj_union_difference X Y Hsub) in Hsize.
  rewrite gmultiset_size_disj_union in Hsize.
  assert (Y ∖ X = ∅) as HE by (apply gmultiset_size_empty_iff; lia).
  rewrite (gmultiset_disj_union_difference X Y Hsub), HE. multiset_solver.
Qed.

Lemma num_same_full_perm label_toks pred_toks :
  num_same label_toks pred_toks = length label_toks →
  num_same label_toks pred_toks = length pred_toks →
  label_toks ≡ₚ pred_toks.
Proof.
  rewrite num_same_common. unfold common_tokens.
  rewrite <- (size_list_to_set_disj label_toks), <- (size_list_to_set_disj pred_toks).
  set (L := list_to_set_disj label_toks : gmultiset string).
  set (P := list_to_set_disj pred_toks : gmultiset string).
  intros HL HP. apply list_to_set_disj_inj_perm. fold L P.
  assert (P ∩ L = L) as E1 by (apply gmultiset_subseteq_same_size; [multiset_solver | done]).
  assert (P ∩ L = P) as E2 by (apply gmultiset_subseteq_same_size; [multiset_solver | done]).
  congruence.
Qed.

Lemma num_same_perm label_toks label_toks' pred_toks pred_toks' :
  label_toks ≡ₚ label_toks' → pred_toks ≡ₚ pred_toks' →
  num_same label_toks pred_toks = num_same label_toks' pred_toks'.
Proof.
  intros Hl Hp. rewrite !num_same_common. unfold common_tokens. by rewrite Hl, Hp.
Qed.

Lemma num_same_refl toks : num_same toks toks = length toks.
Proof.
  rewrite num_same_common. unfold common_tokens.
  rewrite <- (size_list_to_set_disj toks). f_equal. multiset_solver.
Qed.

Lemma multiplicity_not_elem t (l : list string) :
  t ∉ l → multiplicity t (list_to_set_disj l : gmultiset string) = 0.
Proof.
  intros Hn. destruct (multiplicity t (list_to_set_disj l)) as [|n] eqn:E; [done|].
  exfalso. apply Hn. rewrite <- (elem_of_list_to_set_disj (A := string)).
  apply elem_of_multiplicity. lia.
Qed.

Lemma num_same_zero label_toks pred_toks :
  num_same label_toks pred_toks = 0 ↔ ∀ t, t ∈ label_toks → t ∉ pred_toks.
Proof.
  rewrite num_same_common, gmultiset_size_empty_iff. unfold common_tokens. split.
  - intros E t Hl Hp.
    assert (t ∈ (list_to_set_disj pred_toks ∩ list_to_set_disj label_toks
                 : gmultiset string)) as Hin
      by (rewrite gmultiset_elem_of_intersection, !elem_of_list_to_set_disj; done).
    rewrite E in Hin. by apply gmultiset_elem_of_empty in Hin.
  - intros Hd. apply gmultiset_eq. intros t.
    rewrite multiplicity_intersection, multiplicity_empty.
    destruct (decide (t ∈ label_toks)) as [Hl|Hl].
    + rewrite (multiplicity_not_elem t pred_toks) by (by apply Hd). lia.
    + rewrite (multiplicity_not_elem t label_toks) by done. lia.
Qed.

Lemma Qpos_apart_0 (x : Q) : (0 < x)%Q → ¬ (x == 0)%Q.
Proof. intros Hx E. rewrite E in Hx. by apply Qlt_irrefl in Hx. Qed.

Lemma ratio_one n m :
  0 < m → (1 * QofNat n / QofNat m == 1)%Q → n = m.
Proof.
  intros Hm E. pose proof (QofNat_pos m Hm) as Hpos.
  assert (QofNat n == QofNat m)%Q as E'.
  { rewrite <- (Qmult_div_r (QofNat n) (QofNat m)) by (by apply Qpos_apart_0).
    rewrite Qmult_1_l in E. rewrite E. ring. }
  unfold QofNat in E'. apply (proj1 (inject_Z_injective _ _)) in E'. lia.
Qed.

Lemma ratio_same n : 0 < n → (1 * QofNat n / QofNat n == 1)%Q.
Proof.
  intros Hn. pose proof (QofNat_pos n Hn) as Hpos.
  rewrite Qmult_1_l. unfold Qdiv. apply Qmult_inv_r. by apply Qpos_apart_0.
Qed.

Lemma harmonic_pos (p r : Q) :
  (0 < p)%Q → (0 < r)%Q → (0 < 2 * p * r / (p + r))%Q.
Proof.
  intros Hp Hr. apply Qlt_shift_div_l; [lra|]. nra.
Qed.

Lemma harmonic_one (p r : Q) :
  (0 < p <= 1)%Q → (0 < r <= 1)%Q → (2 * p * r / (p + r) == 1)%Q →
  (p == 1)%Q ∧ (r == 1)%Q.
Proof.
  intros [Hp0 Hp1] [Hr0 Hr1] E.
  assert (2 * p * r == p + r)%Q as E'.
  { rewrite <- (Qmult_div_r (2 * p * r) (p + r)) by (apply Qpos_apart_0; lra).
    rewrite E. ring. }
  split.
  - destruct (Qlt_le_dec p 1); [nra | lra].
  - destruct (Qlt_le_dec r 1); [nra | lra].
Qed.

(** X1: the per-sample F1 does not change when prediction and label are
    exchanged. *)
Theorem compute_f1_single_symmetric label_toks pred_toks :
  (_compute_f1_single label_toks pred_toks
   == _compute_f1_single pred_toks label_toks)%Q.
Proof.
  unfold _compute_f1_single.
  rewrite (num_same_comm pred_toks label_toks), (orb_comm (length pred_toks =? 0)).
  destruct ((length label_toks =? 0) || (length pred_toks =? 0)).
  - repeat case_bool_decide; subst; done.
  - destruct (num_same label_toks pred_toks =? 0); [reflexivity|].
    set (a := (1 * QofNat (num_same label_toks pred_toks) / QofNat (length pred_toks))%Q).
    set (b := (1 * QofNat (num_same label_toks pred_toks) / QofNat (length label_toks))%Q).
    setoid_replace (2 * b * a)%Q with (2 * a * b)%Q using relation Qeq by ring.
    setoid_replace (b + a)%Q with (a + b)%Q using relation Qeq by ring.
    reflexivity.
Qed.

(** X2: the per-sample F1 is 1 exactly when prediction and label hold the
    same tokens with the same multiplicities, in any order (two empty token
    lists included). *)
Theorem compute_f1_single_one_iff label_toks pred_toks :
  (_compute_f1_single label_toks pred_toks == 1)%Q ↔ label_toks ≡ₚ pred_toks.
Proof.
  unfold _compute_f1_single. split.
  - destruct ((length label_toks =? 0) || (length pred_toks =? 0)) eqn:He.
    + case_bool_decide as E;
        [by rewrite E | intros H; symmetry in H; by apply Q_apart_0_1 in H].
    + apply orb_false_iff in He as [Hl Hp]. apply Nat.eqb_neq in Hl, Hp.
      destruct (Nat.eqb_spec (num_same label_toks pred_toks) 0) as [|Hn];
        [intros H; symmetry in H; by apply Q_apart_0_1 in H|].
      intros E. apply harmonic_one in E as [E1 E2];
        [| apply ratio_unit; auto using num_same_le_pred with lia
         | apply ratio_unit; auto using num_same_le_label with lia].
      apply ratio_one in E1; [|lia]. apply ratio_one in E2; [|lia].
      by apply num_same_full_perm.
  - intros Hperm.
    destruct label_toks as [|l ls].
    { apply Permutation_nil in Hperm as ->. reflexivity. }
    destruct pred_toks as [|p ps].
    { symmetry in Hperm. by apply Permutation_nil_cons in Hperm. }
    assert (num_same (l :: ls) (p :: ps) = length (l :: ls)) as Hn
      by (rewrite <- (num_same_perm _ _ _ _ (reflexivity _) Hperm); apply num_same_refl).
    assert (length (p :: ps) = length (l :: ls)) as Hlen
      by (symmetry; by apply Permutation_length).
    rewrite Hn, Hlen. cbn [length Nat.eqb orb].
    rewrite (ratio_same (S (length ls))) by lia. by vm_compute.
Qed.

(** X3: the per-sample F1 is 0 exactly when the two token lists share no
    token and are not both empty. *)
Theorem compute_f1_single_zero_iff label_toks pred_toks :
  (_compute_f1_single label_toks pred_toks == 0)%Q
  ↔ (label_toks ≠ [] ∨ pred_toks ≠ []) ∧ ∀ t, t ∈ label_toks → t ∉ pred_toks.
Proof.
  unfold _compute_f1_single.
  destruct label_toks as [|l ls], pred_toks as [|p ps]; cbn [length Nat.eqb orb].
  - rewrite bool_decide_true by done. split.
    + intros H. by apply Q_apart_0_1 in H.
    + intros [[?|?] _]; done.
  - rewrite bool_decide_false by done. split; [|reflexivity].
    intros _. split; [by right|]. intros t Ht. by apply elem_of_nil in Ht.
  - rewrite bool_decide_false by done. split; [|reflexivity].
    intros _. split; [by left|]. intros t _ Ht. by apply elem_of_nil in Ht.
  - destruct (Nat.eqb_spec (num_same (l :: ls) (p :: ps)) 0) as [Hn|Hn].
    + split; [|reflexivity]. intros _. split; [by left|]. by apply num_same_zero.
    + split.
      * intros E. exfalso.
        assert (0 < num_same (l :: ls) (p :: ps)) as Hn0 by lia.
        pose proof (ratio_unit _ _ Hn0 (num_same_le_pred (l :: ls) (p :: ps))) as [Ha _].
        pose proof (ratio_unit _ _ Hn0 (num_same_le_label (l :: ls) (p :: ps))) as [Hb _].
        pose proof (harmonic_pos _ _ Ha Hb) as Hpos.
        cbn [length] in *. rewrite E in Hpos. by apply Qlt_irrefl in Hpos.
      * intros [_ Hd]. by apply num_same_zero in Hd.
Qed.

(** X4: the per-sample F1 depends on the two token lists only as bags: it
    is the same for any reordering of the prediction's tokens and of the
    label's tokens. *)
Theorem compute_f1_single_order label_toks label_toks' pred_toks pred_toks' :
  label_toks ≡ₚ label_toks' → pred_toks ≡ₚ pred_toks' →
  _compute_f1_single label_toks pred_toks = _compute_f1_single label_toks' pred_toks'.
Proof.
  intros Hl Hp. unfold _compute_f1_single.
  rewrite (num_same_perm _ _ _ _ Hl Hp).
  rewrite (Permutation_length Hl), (Permutation_length Hp).
  destruct ((length label_toks' =? 0) || (length pred_toks' =? 0)) eqn:He; [|done].
  assert (label_toks = pred_toks ↔ label_toks' = pred_toks') as Hiff.
  { apply orb_true_iff in He as [E|E]; apply Nat.eqb_eq in E.
    - destruct label_toks'; [|done]. apply Permutation_nil_r in Hl as ->.
      split; intros <-; [by apply Permutation_nil in Hp
                        | symmetry in Hp; by apply Permutation_nil in Hp].
    - destruct pred_toks'; [|done]. apply Permutation_nil_r in Hp as ->.
      split; intros ->; [by apply Permutation_nil in Hl
                        | symmetry in Hl; by apply Permutation_nil in Hl]. }
  destruct Hiff as [H1 H2]. repeat case_bool_decide; try done; exfalso; auto.
Qed.

(** ** Exact match against F1 *)

Lemma compute_f1_single_same toks : (_compute_f1_single toks toks == 1)%Q.
Proof.
  unfold _compute_f1_single. rewrite num_same_refl.
  destruct toks as [|t ts]; [reflexivity|]. cbn [length Nat.eqb orb].
  rewrite (ratio_same (S (length ts))) by lia. by vm_compute.
Qed.

Lemma Qsum_le_pointwise (xs ys : list Q) :
  Forall2 Qle xs ys → (Qsum xs <= Qsum ys)%Q.
Proof.
  induction 1 as [|x y xs ys Hxy _ IH]; cbn [Qsum foldr].
  - lra.
  - fold (Qsum xs) (Qsum ys). lra.
Qed.

Lemma Qsum_all_one (xs : list Q) :
  Forall (λ x, x == 1)%Q xs → (Qsum xs == QofNat (length xs))%Q.
Proof.
  induction 1 as [|x xs Hx _ IH]; cbn [Qsum foldr length].
  - reflexivity.
  - fold (Qsum xs). rewrite Hx, IH. unfold QofNat.
    rewrite Nat2Z.inj_succ, <- Z.add_1_l, inject_Z_plus. reflexivity.
Qed.

Lemma match_le_f1_scores (xs ys : list string) :
  Forall (λ x, PyStr.rstrip_nul x = x) xs →
  Forall (λ y, PyStr.rstrip_nul y = y) ys →
  Forall2 Qle
    ((λ b : bool, if b then 1%Q else 0%Q) <$> np_array_eq xs ys)
    ((λ '(label_toks, pred_toks), _compute_f1_single label_toks pred_toks)
       <$> zip (PyStr.split <$> ys) (PyStr.split <$> xs)).
Proof.
  intros Hxs. revert ys. induction Hxs as [|x xs Hx _ IH];
    intros ys Hys; destruct Hys as [|y ys Hy Hys]; try constructor.
  - unfold np_array_eq. cbn [zip_with fmap list_fmap].
    case_bool_decide as E.
    + rewrite Hx, Hy in E. subst. rewrite compute_f1_single_same. lra.
    + apply compute_f1_single_unit.
  - by apply IH.
Qed.

Lemma mean_le (xs ys : list Q) n :
  0 < n → (Qsum xs <= Qsum ys)%Q → (Qsum xs / QofNat n <= Qsum ys / QofNat n)%Q.
Proof.
  intros Hn Hle. unfold Qdiv. apply Qmult_le_compat_r; [done|].
  apply Qinv_le_0_compat, Qlt_le_weak, QofNat_pos. done.
Qed.

Section MetricRelations.
Context {S Input Output : Type} {env : Imports Output}.
Implicit Types (self : EvaluationResult S Input Output).

(** X5: on the same non-empty samples and with the same options, when no
    normalized prediction and no normalized label ends with a NUL
    character, the exact match score is never above the F1 score: a sample
    whose normalized prediction equals its label scores 1 in both, any
    other sample scores 0 in exact match. (A trailing NUL makes exact match
    count a pair that F1 scores 0, see [exact_match_above_f1_on_padding].) *)
Theorem exact_match_le_f1 self output_key opts log predictions labels :
  get_answers_from_output (outputs self) output_key (runnable_type self) = Ok predictions →
  get_answers_from_output (expected_outputs self) output_key (runnable_type self) = Ok labels →
  length predictions = length labels →
  predictions ≠ [] →
  Forall (λ x, PyStr.rstrip_nul x = x) (preprocess_text predictions opts) →
  Forall (λ y, PyStr.rstrip_nul y = y) (preprocess_text labels opts) →
  ∃ log1 log2 em f1,
    _calculate_em self output_key opts log = (log1, Ok {[ "exact_match" := MFloat em ]})
    ∧ _calculate_f1 self output_key opts log = (log2, Ok {[ "f1" := MFloat f1 ]})
    ∧ (em <= f1)%Q.
Proof.
  intros Hp Hl Hlen Hne Hnp Hnl.
  rewrite (calculate_em_run _ _ _ _ _ _ Hp Hl Hlen Hne),
    (calculate_f1_run _ _ _ _ _ _ Hp Hl Hlen Hne).
  pose proof (match_le_f1_scores (preprocess_text predictions opts)
                (preprocess_text labels opts) Hnp Hnl) as HF.
  set (ms := (λ b : bool, if b then 1%Q else 0%Q)
               <$> np_array_eq (preprocess_text predictions opts)
                               (preprocess_text labels opts)) in *.
  set (fs := (λ '(label_toks, pred_toks), _compute_f1_single label_toks pred_toks)
               <$> zip (PyStr.split <$> preprocess_text labels opts)
                       (PyStr.split <$> preprocess_text predictions opts)) in *.
  assert (length ms = length predictions) as Hms.
  { unfold ms, np_array_eq, preprocess_text.
    rewrite !length_fmap, length_zip, !length_fmap. lia. }
  assert (length fs = length ms) as Hfs by (symmetry; by eapply Forall2_length).
  assert (0 < length predictions) by (destruct predictions; [done | simpl; lia]).
  rewrite (np_mean_nonempty ms), (np_mean_nonempty fs)
    by (intros E; apply (f_equal length) in E; simpl in E; lia).
  eexists _, _, _, _. split; [reflexivity|]. split; [reflexivity|].
  rewrite Hfs. apply mean_le; [lia|]. by apply Qsum_le_pointwise.
Qed.

(** X6: when the extracted predictions and labels are the same non-empty
    list, exact match and F1 are both 1. *)
Theorem identical_answers_score_one self output_key opts log answers :
  get_answers_from_output (outputs self) output_key (runnable_type self) = Ok answers →
  get_answers_from_output (expected_outputs self) output_key (runnable_type self) = Ok answers →
  answers ≠ [] →
  ∃ log1 log2 em f1,
    _calculate_em self output_key opts log = (log1, Ok {[ "exact_match" := MFloat em ]})
    ∧ _calculate_f1 self output_key opts log = (log2, Ok {[ "f1" := MFloat f1 ]})
    ∧ (em == 1)%Q ∧ (f1 == 1)%Q.
Proof.
  intros Hp Hl Hne.
  rewrite (calculate_em_run _ _ _ _ _ _ Hp Hl eq_refl Hne),
    (calculate_f1_run _ _ _ _ _ _ Hp Hl eq_refl Hne).
  set (xs := preprocess_text answers opts).
  assert (length xs = length answers) as Hxs
    by (unfold xs, preprocess_text; by rewrite length_fmap).
  assert (0 < length answers) as Hpos by (destruct answers; [done | simpl; lia]).
  set (ms := (λ b : bool, if b then 1%Q else 0%Q) <$> np_array_eq xs xs).
  set (fs := (λ '(label_toks, pred_toks), _compute_f1_single label_toks pred_toks)
               <$> zip (PyStr.split <$> xs) (PyStr.split <$> xs)).
  assert (length ms = length answers) as Hms.
  { unfold ms, np_array_eq. rewrite !length_fmap, length_zip. lia. }
  assert (length fs = length answers) as Hfs.
  { unfold fs. rewrite !length_fmap, length_zip, !length_fmap. lia. }
  assert (Forall (λ x, x == 1)%Q ms) as Hm1.
  { unfold ms, np_array_eq. clear. induction xs as [|x xs IH]; [constructor|].
    cbn [zip_with fmap list_fmap]. constructor; [|apply IH].
    rewrite bool_decide_true by done. reflexivity. }
  assert (Forall (λ x, x == 1)%Q fs) as Hf1.
  { unfold fs. clear. induction xs as [|x xs IH]; [constructor|].
    cbn [zip_with fmap list_fmap]. constructor; [|apply IH].
    apply compute_f1_single_same. }
  rewrite (np_mean_nonempty ms), (np_mean_nonempty fs)
    by (intros E; apply (f_equal length) in E; simpl in E; lia).
  eexists _, _, _, _. split; [reflexivity|]. split; [reflexivity|].
  rewrite (Qsum_all_one ms Hm1), (Qsum_all_one fs Hf1), Hms, Hfs.
  pose proof (QofNat_pos _ Hpos) as Hq. apply Qpos_apart_0 in Hq.
  split; unfold Qdiv; by apply Qmult_inv_r.
Qed.

End MetricRelations.

(** ** Failures and the two paths of SAS *)

Lemma diag_loop {W} (scores : list (list Q)) (indices : list nat) (diag acc : list Q)
    (w : W) :
  Forall2 (λ i x, diag_item scores i = Ok x) indices diag →
  for_each indices
    (λ acc i w, match diag_item scores i with
                | Ok x => (w, Ok (acc ++ [x]))
                | Err e => (w, Err e)
                end) acc w
  = (w, Ok (acc ++ diag)).
Proof.
  intros HF. revert acc. induction HF as [|i x indices diag Hi _ IH]; intros acc.
  - simpl. unfold ret. by rewrite app_nil_r.
  - cbn [for_each]. unfold bind at 1. rewrite Hi, IH, <- app_assoc. reflexivity.
Qed.

Lemma existsb_false_Forall {A} (f : A → bool) (l : list A) :
  Forall (λ a, f a = false) l → existsb f l = false.
Proof. induction 1 as [|a l Ha _ IH]; [done|]. simpl. by rewrite Ha, IH. Qed.

Lemma Qsum_le_length (xs : list Q) :
  Forall (λ x, x <= 1)%Q xs → (Qsum xs <= QofNat (length xs))%Q.
Proof.
  induction 1 as [|x xs Hx _ IH]; cbn [Qsum foldr length].
  - change (0 <= 0)%Q. lra.
  - fold (Qsum xs). unfold QofNat in *.
    rewrite Nat2Z.inj_succ, <- Z.add_1_r, inject_Z_plus.
    change (inject_Z 1) with 1%Q. lra.
Qed.

Section SasProperties.
Context {S Input Output : Type} {env : Imports Output}.
Implicit Types (self : EvaluationResult S Input Output).

(** X7: a failure of the answer extraction is raised unchanged by EM, F1
    and SAS. When the predictions cannot be extracted the labels are not
    asked for; when the labels cannot be extracted nothing is normalized
    or scored. *)
Theorem extraction_failure_propagates self output_key opts model batch_size device token
    log e :
  (get_answers_from_output (outputs self) output_key (runnable_type self) = Err e →
     _calculate_em self output_key opts log = (log ++ ["get_answers_from_output"], Err e)
     ∧ _calculate_f1 self output_key opts log = (log ++ ["get_answers_from_output"], Err e)
     ∧ (metrics_import_check = Ok () →
        _calculate_sas self output_key opts model batch_size device token log
        = (log ++ ["metrics_import.check"; "get_answers_from_output"], Err e)))
  ∧ (∀ predictions,
       get_answers_from_output (outputs self) output_key (runnable_type self)
         = Ok predictions →
       get_answers_from_output (expected_outputs self) output_key (runnable_type self)
         = Err e →
       _calculate_em self output_key opts log
         = (log ++ ["get_answers_from_output"; "get_answers_from_output"], Err e)
       ∧ _calculate_f1 self output_key opts log
         = (log ++ ["get_answers_from_output"; "get_answers_from_output"], Err e)
       ∧ (metrics_import_check = Ok () →
          _calculate_sas self output_key opts model batch_size device token log
          = (log ++ ["metrics_import.check";
                     "get_answers_from_output"; "get_answers_from_output"], Err e))).
Proof.
  split.
  - intros Hp. split; [|split].
    + unfold _calculate_em, bind, call. by rewrite Hp.
    + unfold _calculate_f1, bind, call. by rewrite Hp.
    + intros Hc. unfold _calculate_sas, bind, call. rewrite Hc, Hp.
      by rewrite <- !app_assoc.
  - intros predictions Hp Hl. split; [|split].
    + unfold _calculate_em, bind, call. rewrite Hp, Hl. by rewrite <- !app_assoc.
    + unfold _calculate_f1, bind, call. rewrite Hp, Hl. by rewrite <- !app_assoc.
    + intros Hc. unfold _calculate_sas, bind, call. rewrite Hc, Hp, Hl.
      by rewrite <- !app_assoc.
Qed.

(** X8: SAS without its optional dependencies raises what the import
    guard raises, before anything is extracted; and when the model
    configuration cannot be loaded, SAS raises that failure unchanged and
    constructs no model. *)
Theorem sas_failure_propagates self output_key opts model batch_size device token
    log e :
  (metrics_import_check = Err e →
     _calculate_sas self output_key opts model batch_size device token log
     = (log ++ ["metrics_import.check"], Err e))
  ∧ (∀ predictions labels,
       metrics_import_check = Ok () →
       get_answers_from_output (outputs self) output_key (runnable_type self)
         = Ok predictions →
       get_answers_from_output (expected_outputs self) output_key (runnable_type self)
         = Ok labels →
       length predictions = length labels →
       predictions ≠ [] →
       AutoConfig_from_pretrained model token = Err e →
       _calculate_sas self output_key opts model batch_size device token log
       = (log ++ ["metrics_import.check"; "get_answers_from_output";
                  "get_answers_from_output"; "preprocess_text"; "preprocess_text";
                  "AutoConfig.from_pretrained"], Err e)).
Proof.
  split.
  - intros Hc. unfold _calculate_sas, bind, call. by rewrite Hc.
  - intros predictions labels Hc Hp Hl Hlen Hne Hcfg.
    unfold _calculate_sas, bind, call, ret.
    rewrite Hc, Hp, Hl, <- Hlen, Nat.eqb_refl.
    destruct predictions as [|p ps]; [done|]. cbn [negb length Nat.eqb andb].
    rewrite Hcfg. by rewrite <- !app_assoc.
Qed.

(** X9: on the bi-encoder path of SAS (no declared architecture ends with
    [ForSequenceClassification], or none is declared) the per-sample scores
    are the diagonal of the cosine-similarity matrix, one per sample and
    never passed through [expit], and the score is their mean. *)
Theorem sas_bi_encoder_diagonal self output_key opts model batch_size device token
    log predictions labels config dev similarity_model pred_embeddings label_embeddings
    scores (diag : list Q) :
  metrics_import_check = Ok () →
  get_answers_from_output (outputs self) output_key (runnable_type self) = Ok predictions →
  get_answers_from_output (expected_outputs self) output_key (runnable_type self) = Ok labels →
  length predictions = length labels →
  predictions ≠ [] →
  AutoConfig_from_pretrained model token = Ok config →
  (∀ archs, architectures config = Some archs →
     Forall (λ arch, PyStr.endswith arch "ForSequenceClassification" = false) archs) →
  resolve_device device = Ok dev →
  SentenceTransformer_new model (to_torch_str dev) token = Ok similarity_model →
  encode similarity_model (preprocess_text predictions opts) batch_size
    = Ok pred_embeddings →
  encode similarity_model (preprocess_text labels opts) batch_size = Ok label_embeddings →
  cos_sim pred_embeddings label_embeddings = Ok scores →
  Forall2 (λ i x, ∃ row, scores !! i = Some row ∧ row !! i = Some x)
    (seq 0 (length predictions)) diag →
  _calculate_sas self output_key opts model batch_size device token log
  = (log ++ ["metrics_import.check"; "get_answers_from_output";
             "get_answers_from_output"; "preprocess_text"; "preprocess_text";
             "AutoConfig.from_pretrained"; "ComponentDevice.resolve_device";
             "SentenceTransformer"; "encode"; "encode"; "util.cos_sim"],
     Ok {[ "sas" := np_mean diag; "scores" := MFloats diag ]})
  ∧ length diag = length predictions.
Proof.
  intros Hc Hp Hl Hlen Hne Hcfg Harch Hdev Hst Hep Hel Hcos Hdiag.
  split; [|symmetry; rewrite <- (length_seq (length predictions) 0);
           by eapply Forall2_length].
  assert (match architectures config with
          | None | Some [] => false
          | Some archs =>
              existsb (λ arch, PyStr.endswith arch "ForSequenceClassification") archs
          end = false) as Hused.
  { destruct (architectures config) as [[|a archs]|] eqn:E; try done.
    apply existsb_false_Forall, Harch. done. }
  assert (Forall2 (λ i x, diag_item scores i = Ok x)
            (seq 0 (length (preprocess_text predictions opts))) diag) as Hd.
  { unfold preprocess_text. rewrite length_fmap.
    eapply Forall2_impl; [exact Hdiag|]. intros i x (row & Hr & Hx).
    unfold diag_item. by rewrite Hr, Hx. }
  unfold _calculate_sas, bind, call, ret.
  rewrite Hc, Hp, Hl, <- Hlen, Nat.eqb_refl.
  destruct predictions as [|p ps]; [done|]. cbn [negb length Nat.eqb andb].
  rewrite Hcfg, Hused, Hdev, Hst, Hep, Hel, Hcos.
  rewrite (diag_loop scores _ diag [] _ Hd).
  rewrite <- !app_assoc. reflexivity.
Qed.

(** X10: when [expit] maps every score to at most 1 (as the logistic
    function does), no per-sample score of the cross-encoder path of SAS
    exceeds 1, and neither does their mean. *)
Theorem sas_cross_encoder_at_most_one self output_key opts model batch_size device token
    log predictions labels config archs dev similarity_model (raw : list Q) :
  (∀ x, expit x <= 1)%Q →
  metrics_import_check = Ok () →
  get_answers_from_output (outputs self) output_key (runnable_type self) = Ok predictions →
  get_answers_from_output (expected_outputs self) output_key (runnable_type self) = Ok labels →
  length predictions = length labels →
  predictions ≠ [] →
  AutoConfig_from_pretrained model token = Ok config →
  architectures config = Some archs →
  (∃ arch, arch ∈ archs ∧ PyStr.endswith arch "ForSequenceClassification" = true) →
  resolve_device device = Ok dev →
  CrossEncoder_new model (to_torch_str dev) token = Ok similarity_model →
  predict similarity_model
    (zip (preprocess_text predictions opts) (preprocess_text labels opts)) batch_size
    = Ok raw →
  raw ≠ [] →
  ∃ log' sas scores,
    _calculate_sas self output_key opts model batch_size device token log
      = (log', Ok {[ "sas" := MFloat sas; "scores" := MFloats scores ]})
    ∧ length scores = length raw
    ∧ Forall (λ x, x <= 1)%Q scores
    ∧ (sas <= 1)%Q.
Proof.
  intros Hex Hc Hp Hl Hlen Hne Hcfg Harch (arch & Hin & Hsuf) Hdev Hce Hraw Hraw0.
  destruct archs as [|a archs']; [by apply elem_of_nil in Hin|].
  assert (existsb (λ arch, PyStr.endswith arch "ForSequenceClassification")
            (a :: archs') = true) as Hused.
  { apply existsb_exists. exists arch. split; [by apply list_elem_of_In | done]. }
  set (scores := if existsb Qgt1 raw then expit <$> raw else raw).
  assert (length scores = length raw) as Hlens.
  { unfold scores. destruct (existsb Qgt1 raw); [apply length_fmap | done]. }
  assert (Forall (λ x, x <= 1)%Q scores) as Hle.
  { unfold scores. destruct (existsb Qgt1 raw) eqn:E.
    - apply Forall_fmap, Forall_forall. intros x _. apply Hex.
    - apply Forall_forall. intros x Hx.
      destruct (Qlt_le_dec 1 x) as [H1|H1]; [|done].
      assert (existsb Qgt1 raw = true) as E'
        by (apply existsb_Qgt1_true; eauto).
      congruence. }
  assert (scores ≠ []) as Hs0.
  { intros E. apply (f_equal length) in E. rewrite Hlens in E.
    destruct raw; [done | simpl in E; lia]. }
  exists (log ++ ["metrics_import.check"; "get_answers_from_output";
                  "get_answers_from_output"; "preprocess_text"; "preprocess_text";
                  "AutoConfig.from_pretrained"; "ComponentDevice.resolve_device";
                  "CrossEncoder"; "predict"]),
    (Qsum scores / QofNat (length scores))%Q, scores.
  split; [|split; [done|split; [done|]]].
  - rewrite <- (np_mean_nonempty scores Hs0).
    unfold _calculate_sas, bind, call, ret.
    rewrite Hc, Hp, Hl, <- Hlen, Nat.eqb_refl.
    destruct predictions as [|p ps]; [done|]. cbn [negb length Nat.eqb andb].
    rewrite Hcfg, Harch, Hused, Hdev, Hce, Hraw.
    rewrite <- !app_assoc. reflexivity.
  - apply Qle_shift_div_r.
    + apply QofNat_pos. destruct scores; [done | simpl; lia].
    + rewrite Qmult_1_l. by apply Qsum_le_length.
Qed.

End SasProperties.

(** ** Keyword arguments of the text metrics *)

Lemma bind_kwargs_ok (params required : list string) (kwargs : gmap string PyVal) :
  (∀ k, is_Some (kwargs !! k) → k ∈ params) →
  (∀ p, p ∈ required → is_Some (kwargs !! p)) →
  bind_kwargs params required kwargs = Ok ().
Proof.
  intros Hk Hr. unfold bind_kwargs.
  rewrite bool_decide_true.
  - rewrite bool_decide_true; [done|]. by apply Forall_forall.
  - apply Forall_forall. intros k [[k' v] [-> Hin]]%list_elem_of_fmap.
    apply Hk. apply elem_of_map_to_list in Hin. by exists v.
Qed.

Lemma bind_kwargs_unexpected (params required : list string) (kwargs : gmap string PyVal) k :
  is_Some (kwargs !! k) → k ∉ params →
  bind_kwargs params required kwargs = Err (TypeError "got an unexpected keyword argument").
Proof.
  intros [v Hv] Hk. unfold bind_kwargs. rewrite bool_decide_false; [done|].
  intros HF. apply Hk. rewrite Forall_forall in HF. apply HF.
  apply list_elem_of_fmap. exists (k, v). split; [done|]. by apply elem_of_map_to_list.
Qed.

Lemma bind_kwargs_missing (params : list string) (kwargs : gmap string PyVal) p :
  kwargs !! p = None →
  ∃ msg, bind_kwargs params [p] kwargs = Err (TypeError msg).
Proof.
  intros Hp. unfold bind_kwargs. case_bool_decide; [|eauto].
  rewrite bool_decide_false; [eauto|].
  intros HF. apply Forall_cons in HF as [[v Hv] _]. congruence.
Qed.

Section DispatchProperties.
Context {S Input Output : Type} {env : Imports Output}.
Implicit Types (self : EvaluationResult S Input Output).

(** X11: [calculate_metrics] with F1, EM or SAS raises [TypeError], and
    calls nothing, when [output_key] is not passed or when a keyword is
    passed that the metric's method does not take. *)
Theorem text_metric_rejects_bad_keywords self (m : Metric) (kwargs : gmap string PyVal) log :
  stub_key m = None →
  kwargs !! "output_key" = None
  ∨ (∃ k, is_Some (kwargs !! k) ∧ k ∉ metric_params m) →
  ∃ msg, calculate_metrics self (Builtin m) kwargs log = (log, Err (TypeError msg)).
Proof.
  intros Hm [Hmiss|(k & Hk & Hnot)].
  - destruct m; simplify_eq/=; unfold bind;
      match goal with
      | |- context [bind_kwargs ?ps _ _] =>
          destruct (bind_kwargs_missing ps kwargs "output_key" Hmiss) as [msg ->]
      end; eauto.
  - destruct m; simplify_eq/=; unfold bind;
      rewrite (bind_kwargs_unexpected _ _ _ k Hk Hnot); eauto.
Qed.

(** X12: with [output_key] passed and every keyword one the method takes,
    [calculate_metrics] with F1, EM or SAS is the call of the method with
    the passed values, each absent option at its default: no regexes, the
    three flags [False], and for SAS the multilingual mpnet model, batch
    size 32, no device and no token. *)
Theorem text_metric_binds_keywords self (m : Metric) (kwargs : gmap string PyVal)
    output_key log :
  stub_key m = None →
  kwargs !! "output_key" = Some output_key →
  (∀ k, is_Some (kwargs !! k) → k ∈ metric_params m) →
  let opts :=
    {| regexes_to_ignore := default VNone (kwargs !! "regexes_to_ignore");
       ignore_case := default (VBool false) (kwargs !! "ignore_case");
       ignore_punctuation := default (VBool false) (kwargs !! "ignore_punctuation");
       ignore_numbers := default (VBool false) (kwargs !! "ignore_numbers") |} in
  calculate_metrics self (Builtin m) kwargs log
  = match m with
    | F1 => _calculate_f1 self output_key opts log
    | EM => _calculate_em self output_key opts log
    | _ =>
        _calculate_sas self output_key opts
          (default (VStr "sentence-transformers/paraphrase-multilingual-mpnet-base-v2")
                   (kwargs !! "model"))
          (default (VInt 32) (kwargs !! "batch_size"))
          (default VNone (kwargs !! "device"))
          (default VNone (kwargs !! "token")) log
    end.
Proof.
  intros Hm Hkey Hk opts.
  assert (∀ p, p ∈ ["output_key"] → is_Some (kwargs !! p)) as Hreq
    by (intros p ->%list_elem_of_singleton; eauto).
  destruct m; simplify_eq/=; unfold bind, arg;
    rewrite (bind_kwargs_ok _ _ _ Hk Hreq), Hkey; reflexivity.
Qed.

Lemma eval_matched (r : Runnable S Input Output) (ins : list Input)
    (expected : list Output) (w : EvalWorld S Input) :
  length ins = length expected →
  eval r ins expected w
  = ({| rstate := (run_in_order r (rstate w) ins).1;
        invoked := invoked w ++ take (invocations r (rstate w) ins) ins |},
     match (run_in_order r (rstate w) ins).2 with
     | Ok outs => Ok (__init__ r ins outs expected)
     | Err e => Err e
     end).
Proof.
  intros Hlen. unfold eval. rewrite Hlen, Nat.eqb_refl. cbn [negb].
  unfold bind at 1. rewrite eval_loop.
  destruct (run_in_order r (rstate w) ins).2; reflexivity.
Qed.

(** X13: [eval] uses the expected outputs for their number only: with two
    lists of expected outputs of one length, the runnable is invoked on
    the same inputs, ends in the same state, and either raises the same
    in both runs or returns the same inputs and outputs. *)
Theorem eval_ignores_expected_contents (r : Runnable S Input Output) (ins : list Input)
    (expected expected' : list Output) (w : EvalWorld S Input) :
  length expected = length expected' →
  (eval r ins expected w).1 = (eval r ins expected' w).1
  ∧ match (eval r ins expected w).2, (eval r ins expected' w).2 with
    | Ok er, Ok er' =>
        inputs er = inputs er' ∧ outputs er = outputs er'
        ∧ expected_outputs er = expected ∧ expected_outputs er' = expected'
    | Err e, Err e' => e = e'
    | _, _ => False
    end.
Proof.
  intros Hlen. destruct (decide (length ins = length expected)) as [E|E].
  - rewrite (eval_matched r ins expected w E),
      (eval_matched r ins expected' w ltac:(congruence)).
    destruct (run_in_order r (rstate w) ins).2; simpl; done.
  - unfold eval. rewrite <- Hlen. apply Nat.eqb_neq in E. rewrite E. simpl. done.
Qed.

End DispatchProperties.

Section StatelessRunnable.
Context {S Input Output : Type} {env : Imports Output}.

Lemma run_in_order_stateless (r : Runnable S Input Output) (f : Input → Output) s ins :
  (∀ s input_, run r s input_ = (s, Ok (f input_))) →
  run_in_order r s ins = (s, Ok (f <$> ins)) ∧ invocations r s ins = length ins.
Proof.
  intros Hr. induction ins as [|i ins [IH1 IH2]]; [done|].
  cbn [run_in_order invocations]. rewrite Hr, IH1, IH2. done.
Qed.

(** X14: for a runnable whose [run] never raises and neither reads nor
    changes its state, [eval] with as many expected outputs as inputs
    returns the outputs [run(input)] of the inputs, at the same indices. *)
Theorem eval_stateless_outputs (r : Runnable S Input Output) (f : Input → Output)
    (ins : list Input) (expected : list Output) (w : EvalWorld S Input) :
  (∀ s input_, run r s input_ = (s, Ok (f input_))) →
  length ins = length expected →
  ∃ er, eval r ins expected w
        = ({| rstate := rstate w; invoked := invoked w ++ ins |}, Ok er)
        ∧ inputs er = ins
        ∧ expected_outputs er = expected
        ∧ ∀ i input_, ins !! i = Some input_ → outputs er !! i = Some (f input_).
Proof.
  intros Hr Hlen.
  destruct (run_in_order_stateless r f (rstate w) ins Hr) as [H1 H2].
  eexists. split.
  - rewrite (eval_matched r ins expected w Hlen), H1, H2, firstn_all. reflexivity.
  - split; [done|]. split; [done|].
    intros i input_ Hi. simpl. by rewrite list_lookup_fmap, Hi.
Qed.

End StatelessRunnable.

(** ** More on the docx converter *)

Section ConverterFurther.
Context {env : Docx.Imports}.
Import Docx.

Lemma get_docx_metadata_fold_size (core : gmap string PyVal) (l : list string)
    (acc : gmap string PyVal) :
  size (foldl (λ docx_meta prop,
                 match core !! prop with
                 | Some value =>
                     if present value then <["docx_" +:+ prop := value]> docx_meta
                     else docx_meta
                 | None => docx_meta
                 end) acc l) ≤ size acc + length l.
Proof.
  revert acc. induction l as [|p l IH]; intros acc; cbn [foldl length]; [lia|].
  etransitivity; [apply IH|].
  destruct (core !! p) as [v|]; [destruct (present v)|]; try lia.
  rewrite map_size_insert. destruct (acc !! _); simpl; lia.
Qed.

(** X15: the docx metadata of a file has at most fifteen entries, and each
    of its keys starts with [docx_]. *)
Theorem docx_metadata_keys (file : DocxDocument) :
  size (_get_docx_metadata file) ≤ 15
  ∧ ∀ k, is_Some (_get_docx_metadata file !! k) → PyStr.is_prefix "docx_" k = true.
Proof.
  split.
  - unfold _get_docx_metadata.
    etransitivity; [apply get_docx_metadata_fold_size|]. by rewrite map_size_empty.
  - intros k [v Hv]. apply get_docx_metadata_lookup in Hv as (prop & _ & -> & _).
    reflexivity.
Qed.

Lemma length_filter_partition {A} (P : A → Prop) `{!∀ x, Decision (P x)} (l : list A) :
  length (filter P l) + length (filter (λ x, ¬ P x) l) = length l.
Proof.
  induction l as [|a l IH]; [done|].
  rewrite !filter_cons. destruct (decide (P a)).
  - rewrite decide_False by tauto. simpl. lia.
  - rewrite decide_True by done. simpl. lia.
Qed.

(** X16: whenever the metadata fits the sources, every source is accounted
    for exactly once: the number of documents returned and the number of
    warnings logged add up to the number of sources. *)
Theorem run_accounts_for_every_source sources meta meta_list log :
  normalize_metadata meta (length sources) = Ok meta_list →
  ∃ documents warnings,
    run sources meta log = (log ++ warnings, Ok {[ "documents" := documents ]})
    ∧ length documents + length warnings = length sources.
Proof.
  intros Hn. pose proof (normalize_metadata_length _ _ _ Hn) as Hlen.
  eexists _, _. split; [by apply run_result|].
  rewrite (Forall2_length _ _ _ (documents_sources sources meta_list Hlen)).
  rewrite <- (length_fmap w_source (omap warning_of sources)), warnings_sources.
  apply length_filter_partition.
Qed.

(** X17: a single dictionary given as [meta] reaches every document: each
    entry of it is in the [meta] of each document returned, whatever the
    source and the file carry under the same key. *)
Theorem run_dict_meta_in_every_document sources (d : gmap string PyVal) log :
  ∃ log' documents,
    run sources (MetaDict d) log = (log', Ok {[ "documents" := documents ]})
    ∧ Forall (λ document, d ⊆ Document.meta document) documents.
Proof.
  eexists _, _. split; [by apply run_result|].
  apply Forall_forall. intros document Hin.
  apply list_elem_of_omap in Hin as ([source metadata] & Hz & Hdoc).
  assert (metadata = d) as ->.
  { apply list_elem_of_lookup in Hz as [i Hi].
    rewrite lookup_zip_with in Hi.
    destruct (sources !! i); [|done]. simpl in Hi.
    destruct (replicate (length sources) d !! i) eqn:E; [|done].
    apply lookup_replicate in E as [-> _]. by simplify_eq/=. }
  unfold document_of in Hdoc. cbn [fst snd] in Hdoc.
  destruct (parsed source) as [[bs file]|]; [|done]. simplify_eq/=.
  apply map_union_subseteq_l.
Qed.

End ConverterFurther.

(** ** The tokens that F1 compares *)

Lemma chars_rev_app (P : ascii → Prop) (s acc : string) :
  Forall P (String.list_ascii_of_string (String.rev_app s acc))
  ↔ Forall P (String.list_ascii_of_string s) ∧ Forall P (String.list_ascii_of_string acc).
Proof.
  revert acc. induction s as [|c s IH]; intros acc; cbn [String.rev_app String.list_ascii_of_string].
  - split; [intros H; split; [constructor | done] | by intros [_ H]].
  - rewrite IH. cbn [String.list_ascii_of_string]. rewrite !Forall_cons. tauto.
Qed.

Lemma rev_app_nonempty (s acc : string) :
  s ≠ "" ∨ acc ≠ "" → String.rev_app s acc ≠ "".
Proof.
  revert acc. induction s as [|c s IH]; intros acc H; cbn [String.rev_app].
  - destruct H; done.
  - apply IH. by right.
Qed.

Lemma split_go_tokens (tok s : string) :
  Forall (λ c, PyStr.is_space c = false) (String.list_ascii_of_string tok) →
  Forall (λ t, t ≠ "" ∧ Forall (λ c, PyStr.is_space c = false) (String.list_ascii_of_string t))
    (PyStr.split_go tok s).
Proof.
  assert (∀ tok, tok ≠ "" →
            Forall (λ c, PyStr.is_space c = false) (String.list_ascii_of_string tok) →
            String.rev tok ≠ ""
            ∧ Forall (λ c, PyStr.is_space c = false)
                (String.list_ascii_of_string (String.rev tok))) as Hrev.
  { intros t Ht HF. unfold String.rev. split.
    - apply rev_app_nonempty. by left.
    - apply chars_rev_app. split; [done | constructor]. }
  revert tok. induction s as [|c s IH]; intros tok Htok; cbn [PyStr.split_go].
  - destruct tok as [|a tok]; constructor; [by apply Hrev | constructor].
  - destruct (PyStr.is_space c) eqn:Hc.
    + destruct tok as [|a tok]; [apply IH; constructor|].
      constructor; [by apply Hrev | apply IH; constructor].
    + apply IH. cbn [String.list_ascii_of_string]. by constructor.
Qed.

(** X18: the whitespace tokenization that F1 applies to a normalized string
    yields only tokens that are not empty and hold no whitespace character. *)
Theorem split_tokens (s : string) :
  Forall (λ t, t ≠ "" ∧ Forall (λ c, PyStr.is_space c = false) (String.list_ascii_of_string t))
    (PyStr.split s).
Proof. apply split_go_tokens. constructor. Qed.

(** ** The further theorems at work on the concrete environments *)

Lemma squash_le_1 (x : Q) : (Demo.squash x <= 1)%Q.
Proof.
  unfold Demo.squash.
  pose proof (Qabs_nonneg x) as Habs. pose proof (Qle_Qabs x) as Hx.
  assert (x / (2 * (1 + Qabs x)) <= 1 # 2)%Q as H.
  { apply Qle_shift_div_r; [lra|]. lra. }
  lra.
Qed.

Section FurtherInstances.
Import Demo.

Lemma compute_f1_single_order_witness :
  _compute_f1_single ["the"; "cat"; "sat"] ["a"; "cat"]
  = _compute_f1_single ["cat"; "the"; "sat"] ["cat"; "a"].
Proof.
  apply (compute_f1_single_order ["the"; "cat"; "sat"] ["cat"; "the"; "sat"]
           ["a"; "cat"] ["cat"; "a"]).
  - apply perm_swap.
  - apply perm_swap.
Defined.

Lemma exact_match_le_f1_witness :
  ∃ log1 log2 em f1,
    _calculate_em (env := imports) result key opts []
      = (log1, Ok {[ "exact_match" := MFloat em ]})
    ∧ _calculate_f1 (env := imports) result key opts [] = (log2, Ok {[ "f1" := MFloat f1 ]})
    ∧ (em <= f1)%Q.
Proof.
  apply (exact_match_le_f1 (env := imports) result key opts []
           ["Paris"; "7"] ["Paris"; "seven"]).
  - reflexivity.
  - reflexivity.
  - reflexivity.
  - discriminate.
  - repeat constructor.
  - repeat constructor.
Defined.

(** Without that condition the order can be the other way round: for the
    prediction "a" followed by NUL and the label "a", exact match is 1 and
    F1 is 0. *)
Example exact_match_above_f1_on_padding :
  ∃ em f1,
    (_calculate_em (env := imports) Padding.padded key opts []).2
      = Ok {[ "exact_match" := MFloat em ]}
    ∧ (_calculate_f1 (env := imports) Padding.padded key opts []).2
      = Ok {[ "f1" := MFloat f1 ]}
    ∧ (em == 1)%Q ∧ (f1 == 0)%Q.
Proof.
  exists (Qsum [1%Q] / QofNat 1)%Q, (Qsum [0%Q] / QofNat 1)%Q.
  split; [vm_compute; reflexivity|]. split; [vm_compute; reflexivity|].
  split; by vm_compute.
Qed.

Lemma identical_answers_score_one_witness :
  ∃ log1 log2 em f1,
    _calculate_em (env := imports) (__init__ echo ["capital?"] ["Paris"] ["Paris"])
        key opts []
      = (log1, Ok {[ "exact_match" := MFloat em ]})
    ∧ _calculate_f1 (env := imports) (__init__ echo ["capital?"] ["Paris"] ["Paris"])
        key opts []
      = (log2, Ok {[ "f1" := MFloat f1 ]})
    ∧ (em == 1)%Q ∧ (f1 == 1)%Q.
Proof.
  apply (identical_answers_score_one (env := imports)
           (__init__ echo ["capital?"] ["Paris"] ["Paris"]) key opts [] ["Paris"]).
  - reflexivity.
  - reflexivity.
  - discriminate.
Defined.

Lemma extraction_failure_propagates_witness :
  _calculate_em (env := Faulty.imports (Ok ()) Faulty.extract (Ok Faulty.bi_encoder))
      Faulty.unlabelled key opts []
    = ([] ++ ["get_answers_from_output"; "get_answers_from_output"],
       Err (Raised "KeyError" "answers"))
  ∧ _calculate_f1 (env := Faulty.imports (Ok ()) Faulty.extract (Ok Faulty.bi_encoder))
      Faulty.unlabelled key opts []
    = ([] ++ ["get_answers_from_output"; "get_answers_from_output"],
       Err (Raised "KeyError" "answers"))
  ∧ _calculate_sas (env := Faulty.imports (Ok ()) Faulty.extract (Ok Faulty.bi_encoder))
      Faulty.unlabelled key opts (VStr "model") (VInt 32) VNone VNone []
    = ([] ++ ["metrics_import.check";
              "get_answers_from_output"; "get_answers_from_output"],
       Err (Raised "KeyError" "answers")).
Proof.
  destruct (proj2 (extraction_failure_propagates
                     (env := Faulty.imports (Ok ()) Faulty.extract (Ok Faulty.bi_encoder))
                     Faulty.unlabelled key opts (VStr "model") (VInt 32) VNone VNone []
                     (Raised "KeyError" "answers"))
              ["Paris"] eq_refl eq_refl) as (Hem & Hf1 & Hsas).
  split; [exact Hem|]. split; [exact Hf1|]. exact (Hsas eq_refl).
Defined.

Lemma sas_failure_propagates_witness :
  _calculate_sas
      (env := Faulty.imports (Err (Raised "ImportError" "sentence-transformers"))
                Faulty.extract (Ok Faulty.bi_encoder))
      result key opts (VStr "model") (VInt 32) VNone VNone []
    = ([] ++ ["metrics_import.check"], Err (Raised "ImportError" "sentence-transformers"))
  ∧ _calculate_sas
      (env := Faulty.imports (Ok ()) Faulty.extract (Err (Raised "OSError" "model")))
      result key opts (VStr "model") (VInt 32) VNone VNone []
    = ([] ++ ["metrics_import.check"; "get_answers_from_output";
              "get_answers_from_output"; "preprocess_text"; "preprocess_text";
              "AutoConfig.from_pretrained"], Err (Raised "OSError" "model")).
Proof.
  split.
  - apply (proj1 (sas_failure_propagates
                    (env := Faulty.imports (Err (Raised "ImportError" "sentence-transformers"))
                              Faulty.extract (Ok Faulty.bi_encoder))
                    result key opts (VStr "model") (VInt 32) VNone VNone []
                    (Raised "ImportError" "sentence-transformers"))).
    reflexivity.
  - apply (proj2 (sas_failure_propagates
                    (env := Faulty.imports (Ok ()) Faulty.extract
                              (Err (Raised "OSError" "model")))
                    result key opts (VStr "model") (VInt 32) VNone VNone []
                    (Raised "OSError" "model")) ["Paris"; "7"] ["Paris"; "seven"]).
    + reflexivity.
    + reflexivity.
    + reflexivity.
    + reflexivity.
    + discriminate.
    + reflexivity.
Defined.

Lemma sas_bi_encoder_diagonal_witness :
  _calculate_sas (env := Faulty.imports (Ok ()) Faulty.extract (Ok Faulty.bi_encoder))
      result key opts (VStr "model") (VInt 32) VNone VNone []
    = ([] ++ ["metrics_import.check"; "get_answers_from_output";
              "get_answers_from_output"; "preprocess_text"; "preprocess_text";
              "AutoConfig.from_pretrained"; "ComponentDevice.resolve_device";
              "SentenceTransformer"; "encode"; "encode"; "util.cos_sim"],
       Ok {[ "sas" := np_mean [1; 0]%Q; "scores" := MFloats [1; 0]%Q ]})
  ∧ length [1; 0]%Q = length ["Paris"; "7"].
Proof.
  assert (["Paris"; "7"] ≠ ([] : list string)) as Hne by discriminate.
  assert (∀ archs, architectures Faulty.bi_encoder = Some archs →
            Forall (λ arch, PyStr.endswith arch "ForSequenceClassification" = false)
              archs) as Harch.
  { intros archs [= <-]. constructor; [reflexivity | constructor]. }
  assert (Forall2 (λ i x, ∃ row, [[1; 0]; [0; 0]]%Q !! i = Some row ∧ row !! i = Some x)
            (seq 0 (length ["Paris"; "7"])) [1; 0]%Q) as Hdiag.
  { constructor; [by exists [1; 0]%Q|]. constructor; [by exists [0; 0]%Q | constructor]. }
  exact (sas_bi_encoder_diagonal
           (env := Faulty.imports (Ok ()) Faulty.extract (Ok Faulty.bi_encoder))
           result key opts (VStr "model") (VInt 32) VNone VNone []
           ["Paris"; "7"] ["Paris"; "seven"] Faulty.bi_encoder
           (() : @Device _ (Faulty.imports (Ok ()) Faulty.extract (Ok Faulty.bi_encoder)))
           (() : @SentenceTransformer _
                   (Faulty.imports (Ok ()) Faulty.extract (Ok Faulty.bi_encoder)))
           (["Paris"; "7"] : @Embeddings _
                   (Faulty.imports (Ok ()) Faulty.extract (Ok Faulty.bi_encoder)))
           (["Paris"; "seven"] : @Embeddings _
                   (Faulty.imports (Ok ()) Faulty.extract (Ok Faulty.bi_encoder)))
           [[1; 0]; [0; 0]]%Q [1; 0]%Q
           eq_refl eq_refl eq_refl eq_refl Hne eq_refl Harch eq_refl eq_refl eq_refl
           eq_refl eq_refl Hdiag).
Defined.

Lemma sas_cross_encoder_at_most_one_witness :
  ∃ log' sas scores,
    _calculate_sas (env := imports) result key opts (VStr "cross-encoder/stsb")
        (VInt 32) VNone VNone []
      = (log', Ok {[ "sas" := MFloat sas; "scores" := MFloats scores ]})
    ∧ length scores = length [3; 1 # 2]%Q
    ∧ Forall (λ x, x <= 1)%Q scores
    ∧ (sas <= 1)%Q.
Proof.
  assert (∃ arch, arch ∈ ["BertForSequenceClassification"]
                  ∧ PyStr.endswith arch "ForSequenceClassification" = true) as Harch.
  { exists "BertForSequenceClassification". split; [left | reflexivity]. }
  assert (["Paris"; "7"] ≠ ([] : list string)) as Hne by discriminate.
  assert ([3; 1 # 2]%Q ≠ []) as Hraw by discriminate.
  exact (sas_cross_encoder_at_most_one (env := imports) result key opts
           (VStr "cross-encoder/stsb") (VInt 32) VNone VNone []
           ["Paris"; "7"] ["Paris"; "seven"]
           {| architectures := Some ["BertForSequenceClassification"] |}
           ["BertForSequenceClassification"]
           (() : @Device _ imports) (() : @CrossEncoder _ imports) [3; 1 # 2]%Q
           squash_le_1 eq_refl eq_refl eq_refl eq_refl Hne eq_refl eq_refl Harch
           eq_refl eq_refl eq_refl Hraw).
Defined.

Lemma text_metric_rejects_bad_keywords_witness :
  (∃ msg, calculate_metrics (env := imports) result (Builtin F1) ∅ []
          = ([], Err (TypeError msg)))
  ∧ (∃ msg, calculate_metrics (env := imports) result (Builtin EM)
              {[ "output_key" := key; "model" := VStr "m" ]} []
            = ([], Err (TypeError msg))).
Proof.
  split.
  - apply (text_metric_rejects_bad_keywords (env := imports) result F1 ∅ [] eq_refl).
    left. reflexivity.
  - apply (text_metric_rejects_bad_keywords (env := imports) result EM
             {[ "output_key" := key; "model" := VStr "m" ]} [] eq_refl).
    right. exists "model". split; [by exists (VStr "m")|].
    apply (bool_decide_unpack _). vm_compute. exact I.
Defined.

Lemma text_metric_binds_keywords_witness :
  calculate_metrics (env := imports) result (Builtin EM)
    {[ "output_key" := key; "ignore_case" := VBool true ]} []
  = _calculate_em (env := imports) result key
      {| regexes_to_ignore := VNone; ignore_case := VBool true;
         ignore_punctuation := VBool false; ignore_numbers := VBool false |} [].
Proof.
  assert (({[ "output_key" := key; "ignore_case" := VBool true ]} : gmap string PyVal)
            !! "output_key" = Some key) as Hkey by (vm_compute; reflexivity).
  apply (text_metric_binds_keywords (env := imports) result EM
           {[ "output_key" := key; "ignore_case" := VBool true ]} key [] eq_refl Hkey).
  intros k [v Hk].
  apply lookup_insert_Some in Hk as [[<- _]|[_ Hk]];
    [apply (bool_decide_unpack _); vm_compute; exact I|].
  apply lookup_singleton_Some in Hk as [<- _].
  apply (bool_decide_unpack _). vm_compute. exact I.
Defined.

Lemma eval_ignores_expected_contents_witness :
  (eval echo ["capital?"; "days?"] ["Paris"; "seven"] fresh).1
  = (eval echo ["capital?"; "days?"] ["Rome"; "five"] fresh).1
  ∧ match (eval echo ["capital?"; "days?"] ["Paris"; "seven"] fresh).2,
          (eval echo ["capital?"; "days?"] ["Rome"; "five"] fresh).2 with
    | Ok er, Ok er' =>
        inputs er = inputs er' ∧ outputs er = outputs er'
        ∧ expected_outputs er = ["Paris"; "seven"]
        ∧ expected_outputs er' = ["Rome"; "five"]
    | Err e, Err e' => e = e'
    | _, _ => False
    end.
Proof.
  apply (eval_ignores_expected_contents echo ["capital?"; "days?"]
           ["Paris"; "seven"] ["Rome"; "five"] fresh).
  reflexivity.
Defined.

Lemma eval_stateless_outputs_witness :
  ∃ er, eval {| type_name := "Pipeline"; run := λ (s : unit) (input_ : string),
                                                (s, Ok (input_ +:+ "!")) |}
          ["a"; "b"] ["x"; "y"] {| rstate := (); invoked := [] |}
        = ({| rstate := (); invoked := [] ++ ["a"; "b"] |}, Ok er)
        ∧ inputs er = ["a"; "b"]
        ∧ expected_outputs er = ["x"; "y"]
        ∧ ∀ i input_, ["a"; "b"] !! i = Some input_ →
                      outputs er !! i = Some (input_ +:+ "!").
Proof.
  apply (eval_stateless_outputs
           {| type_name := "Pipeline"; run := λ (s : unit) (input_ : string),
                                                 (s, Ok (input_ +:+ "!")) |}
           (λ input_, input_ +:+ "!") ["a"; "b"] ["x"; "y"]
           {| rstate := (); invoked := [] |}).
  - reflexivity.
  - reflexivity.
Defined.

Lemma run_accounts_for_every_source_witness :
  ∃ documents warnings,
    Docx.run (H := docx_imports) sources Docx.MetaNone []
      = ([] ++ warnings, Ok {[ "documents" := documents ]})
    ∧ length documents + length warnings = length sources.
Proof.
  apply (run_accounts_for_every_source (env := docx_imports) sources Docx.MetaNone
           (replicate 3 ∅) []).
  reflexivity.
Defined.

End FurtherInstances.

(** ** Scores and normalization *)

Section NormalizedAnswers.
Context {S Input Output : Type} {env : Imports Output}.
Implicit Types (self : EvaluationResult S Input Output).

(** X19: exact match and F1 see the answers only through the normalizer:
    two evaluations whose extracted predictions and labels are normalized
    to the same strings (non-empty, as many predictions as labels) get the
    same exact match result and the same F1 result. *)
Theorem scores_depend_on_normalized_answers self self' output_key output_key' opts opts'
    log predictions labels predictions' labels' :
  get_answers_from_output (outputs self) output_key (runnable_type self) = Ok predictions →
  get_answers_from_output (expected_outputs self) output_key (runnable_type self) = Ok labels →
  get_answers_from_output (outputs self') output_key' (runnable_type self')
    = Ok predictions' →
  get_answers_from_output (expected_outputs self') output_key' (runnable_type self')
    = Ok labels' →
  length predictions = length labels →
  predictions ≠ [] →
  preprocess_text predictions opts = preprocess_text predictions' opts' →
  preprocess_text labels opts = preprocess_text labels' opts' →
  _calculate_em self output_key opts log = _calculate_em self' output_key' opts' log
  ∧ _calculate_f1 self output_key opts log = _calculate_f1 self' output_key' opts' log.
Proof.
  intros Hp Hl Hp' Hl' Hlen Hne Ep El.
  assert (length predictions' = length predictions) as Hlp.
  { apply (f_equal length) in Ep. unfold preprocess_text in Ep.
    by rewrite !length_fmap in Ep. }
  assert (length labels' = length labels) as Hll.
  { apply (f_equal length) in El. unfold preprocess_text in El.
    by rewrite !length_fmap in El. }
  assert (length predictions' = length labels') as Hlen' by lia.
  assert (predictions' ≠ []) as Hne'.
  { intros ->. destruct predictions; [done | simpl in Hlp; lia]. }
  rewrite (calculate_em_run _ _ _ _ _ _ Hp Hl Hlen Hne),
    (calculate_em_run _ _ _ _ _ _ Hp' Hl' Hlen' Hne'),
    (calculate_f1_run _ _ _ _ _ _ Hp Hl Hlen Hne),
    (calculate_f1_run _ _ _ _ _ _ Hp' Hl' Hlen' Hne').
  by rewrite Ep, El.
Qed.

End NormalizedAnswers.

Lemma scores_depend_on_normalized_answers_witness :
  _calculate_em (env := Lowering.imports) Lowering.first_run Demo.key
      Lowering.ignoring_case []
    = _calculate_em (env := Lowering.imports) Lowering.second_run (VStr "replies")
        Lowering.ignoring_case []
  ∧ _calculate_f1 (env := Lowering.imports) Lowering.first_run Demo.key
      Lowering.ignoring_case []
    = _calculate_f1 (env := Lowering.imports) Lowering.second_run (VStr "replies")
        Lowering.ignoring_case [].
Proof.
  apply (scores_depend_on_normalized_answers (env := Lowering.imports)
           Lowering.first_run Lowering.second_run
           Demo.key (VStr "replies") Lowering.ignoring_case Lowering.ignoring_case []
           ["Paris"; "7 Days"] ["paris"; "seven"] ["PARIS"; "7 days"] ["Paris"; "Seven"]).
  - reflexivity.
  - reflexivity.
  - reflexivity.
  - reflexivity.
  - reflexivity.
  - discriminate.
  - reflexivity.
  - reflexivity.
Defined.

(** The two runs of the instance above hold different answers, which the
    normalizer maps to the same strings. *)
Example lowering_runs_differ :
  outputs Lowering.first_run ≠ outputs Lowering.second_run
  ∧ expected_outputs Lowering.first_run ≠ expected_outputs Lowering.second_run
  ∧ preprocess_text (env := Lowering.imports) (outputs Lowering.first_run)
      Lowering.ignoring_case
    = ["paris"; "7 days"]
  ∧ preprocess_text (env := Lowering.imports) (outputs Lowering.second_run)
      Lowering.ignoring_case
    = ["paris"; "7 days"].
Proof. split; [discriminate|]. split; [discriminate|]. split; reflexivity. Qed.
